(** * Weather dashboard: forecast aggregation, fetchers and advisory fallback

    A shallow embedding of [final project.py].  Python text is a list of
    code points, a decoded JSON payload is a tree of Python values, a
    raised exception is the [Raise] branch of [result], and the effects of
    the callbacks (network requests, dialogs, widget updates, console
    output) are threaded through a small writer/state monad over an
    abstract outside world. *)

From Stdlib Require Import String Ascii List Bool Arith NArith ZArith QArith Lia.
From Stdlib Require Import DecimalString Permutation.
Import ListNotations.
Close Scope Q_scope.

Set Implicit Arguments.

(** ** Python text *)

Module PyStr.

(** A Python [str] is a sequence of Unicode code points. *)
Definition pystr := list N.

(** ASCII literal of the source as a [pystr]. *)
Definition lit (s : string) : pystr :=
  List.map N_of_ascii (list_ascii_of_string s).

Definition eqb (a b : pystr) : bool :=
  if list_eq_dec N.eq_dec a b then true else false.

(** Code points for which [str.isspace] holds; [str.strip()] removes
    exactly these from both ends. *)
Definition isspace (c : N) : bool :=
  ((9 <=? c) && (c <=? 13) || (28 <=? c) && (c <=? 32)
   || (c =? 133) || (c =? 160) || (c =? 5760)
   || (8192 <=? c) && (c <=? 8202)
   || (c =? 8232) || (c =? 8233) || (c =? 8239) || (c =? 8287)
   || (c =? 12288))%N.

Fixpoint lstrip (s : pystr) : pystr :=
  match s with
  | c :: s' => if isspace c then lstrip s' else s
  | [] => []
  end.

(** [s.strip()] *)
Definition strip (s : pystr) : pystr := rev (lstrip (rev (lstrip s))).

(** [s.split(" ")[0]]: the text before the first space, the whole text
    when it has none. *)
Fixpoint split_space_head (s : pystr) : pystr :=
  match s with
  | [] => []
  | c :: s' => if (c =? 32)%N then [] else c :: split_space_head s'
  end.

Fixpoint startswith (p s : pystr) : bool :=
  match p, s with
  | [], _ => true
  | _ :: _, [] => false
  | a :: p', b :: s' => (a =? b)%N && startswith p' s'
  end.

(** [p in s] for two strings: [p] occurs as a contiguous run of [s]. *)
Fixpoint contains (p s : pystr) : bool :=
  startswith p s ||
  match s with
  | [] => false
  | _ :: s' => contains p s'
  end.

End PyStr.
Import PyStr.

(** ** Exceptions and results *)

Inductive exn_kind : Type :=
| KeyError | IndexError | TypeError | AttributeError | ValueError
| OverflowError | OSError
| RequestException          (* requests.exceptions.RequestException and subclasses *)
| OtherException.           (* any other subclass of Exception *)

(** An exception instance: its class and the text [str(e)] yields.  Only
    subclasses of [Exception] are modelled; the wording of the messages of
    built-in errors follows CPython and no property below depends on it. *)
Record exn : Type := mkExn { kind : exn_kind; detail : pystr }.

Inductive result (A : Type) : Type :=
| Ok (a : A)
| Raise (e : exn).
Arguments Ok {A} a.
Arguments Raise {A} e.

Definition rbind {A B} (r : result A) (k : A -> result B) : result B :=
  match r with
  | Ok a => k a
  | Raise e => Raise e
  end.

Declare Scope result_scope.
Delimit Scope result_scope with res.
Notation "x <- r ;; k" := (rbind r (fun x => k))
  (at level 100, r at next level, right associativity) : result_scope.

Definition is_request_exception (e : exn) : bool :=
  match kind e with RequestException => true | _ => false end.

(** ** Decoded JSON payloads as Python values *)

(** A Python float: the finite ones by the rational they denote. *)
Inductive pyfloat : Type :=
| FNan
| FInf (negative : bool)
| FNegZero
| FFinite (q : Q).

#[local] Set Warnings "-register-all".

Inductive json : Type :=
| JNull                               (* None *)
| JBool (b : bool)
| JInt (z : Z)
| JFloat (f : pyfloat)
| JStr (s : pystr)
| JArr (items : list json)
| JObj (fields : list (pystr * json)). (* dict, insertion order; first binding of a key wins *)

Module Py.

Definition type_name (v : json) : pystr :=
  match v with
  | JNull => lit "NoneType"
  | JBool _ => lit "bool"
  | JInt _ => lit "int"
  | JFloat _ => lit "float"
  | JStr _ => lit "str"
  | JArr _ => lit "list"
  | JObj _ => lit "dict"
  end.

Definition quoted (s : pystr) : pystr := lit "'" ++ s ++ lit "'".

Definition no_attribute (v : json) (attr : pystr) : exn :=
  mkExn AttributeError
        (quoted (type_name v) ++ lit " object has no attribute " ++ quoted attr).

Definition not_subscriptable (v : json) : exn :=
  mkExn TypeError (quoted (type_name v) ++ lit " object is not subscriptable").

Definition bad_index (v : json) : exn :=
  mkExn TypeError (type_name v ++ lit " indices must be integers").

Fixpoint lookup (k : pystr) (fields : list (pystr * json)) : option json :=
  match fields with
  | [] => None
  | (k', v) :: rest => if PyStr.eqb k' k then Some v else lookup k rest
  end.

(** [bool(v)] *)
Definition truthy (v : json) : bool :=
  match v with
  | JNull => false
  | JBool b => b
  | JInt z => negb (z =? 0)%Z
  | JFloat FNan => true
  | JFloat (FInf _) => true
  | JFloat FNegZero => false
  | JFloat (FFinite q) => negb (Qeq_bool q 0)
  | JStr s => match s with [] => false | _ => true end
  | JArr l => match l with [] => false | _ => true end
  | JObj l => match l with [] => false | _ => true end
  end.

(** [v == n] for an int literal [n]. *)
Definition eq_int (v : json) (n : Z) : bool :=
  match v with
  | JInt z => (z =? n)%Z
  | JBool b => ((if b then 1 else 0) =? n)%Z
  | JFloat (FFinite q) => Qeq_bool q (inject_Z n)
  | JFloat FNegZero => (n =? 0)%Z
  | _ => false
  end.

(** [v.get(k, default)] *)
Definition get (v : json) (k : pystr) (default : json) : result json :=
  match v with
  | JObj fields =>
      match lookup k fields with
      | Some x => Ok x
      | None => Ok default
      end
  | _ => Raise (no_attribute v (lit "get"))
  end.

(** [v[k]] for a string key [k]. *)
Definition getitem (v : json) (k : pystr) : result json :=
  match v with
  | JObj fields =>
      match lookup k fields with
      | Some x => Ok x
      | None => Raise (mkExn KeyError (quoted k))
      end
  | JArr _ | JStr _ => Raise (bad_index v)
  | _ => Raise (not_subscriptable v)
  end.

(** [v[i]] for a non-negative int literal [i]. *)
Definition index (v : json) (i : nat) : result json :=
  match v with
  | JArr l =>
      match nth_error l i with
      | Some x => Ok x
      | None => Raise (mkExn IndexError (lit "list index out of range"))
      end
  | JStr s =>
      match nth_error s i with
      | Some c => Ok (JStr [c])
      | None => Raise (mkExn IndexError (lit "string index out of range"))
      end
  | JObj _ => Raise (mkExn KeyError (lit "0"))   (* no int key in a decoded object; only [v[0]] reaches this *)
  | _ => Raise (not_subscriptable v)
  end.

(** [v[:n]] *)
Definition slice_to (n : nat) (v : json) : result json :=
  match v with
  | JArr l => Ok (JArr (firstn n l))
  | JStr s => Ok (JStr (firstn n s))
  | JObj _ => Raise (mkExn TypeError (lit "unhashable type: 'slice'"))  (* a KeyError from Python 3.12 on *)
  | _ => Raise (not_subscriptable v)
  end.

(** The items a [for] loop over [v] visits. *)
Definition iter (v : json) : result (list json) :=
  match v with
  | JArr l => Ok l
  | JStr s => Ok (List.map (fun c => JStr [c]) s)
  | JObj fields => Ok (List.map (fun kv => JStr (fst kv)) fields)
  | _ => Raise (mkExn TypeError (quoted (type_name v) ++ lit " object is not iterable"))
  end.

Definition is_str (s : pystr) (v : json) : bool :=
  match v with JStr t => PyStr.eqb t s | _ => false end.

(** [s in v] for a string [s]. *)
Definition contains (s : pystr) (v : json) : result bool :=
  match v with
  | JStr t => Ok (PyStr.contains s t)
  | JArr l => Ok (existsb (is_str s) l)
  | JObj fields => Ok (match lookup s fields with Some _ => true | None => false end)
  | _ => Raise (mkExn TypeError
                      (lit "argument of type " ++ quoted (type_name v) ++ lit " is not iterable"))
  end.

(** [v.split(" ")[0]] *)
Definition split_head (v : json) : result pystr :=
  match v with
  | JStr s => Ok (split_space_head s)
  | _ => Raise (no_attribute v (lit "split"))
  end.

End Py.

(** ** Forecast aggregator: the grouping and selection of [display_forecast] *)

Module Aggregator.

(** The local dict [daily]: date text to the entries of that date, in
    insertion order. *)
Definition bucket : Type := pystr * list json.

(** [daily.setdefault(d, []).append(f)] *)
Fixpoint setdefault_append (d : pystr) (f : json) (daily : list bucket) : list bucket :=
  match daily with
  | [] => [(d, [f])]
  | (k, fs) :: rest =>
      if PyStr.eqb k d then (k, fs ++ [f]) :: rest
      else (k, fs) :: setdefault_append d f rest
  end.

(** [f['dt_txt'].split(" ")[0]] *)
Definition entry_date (f : json) : result pystr :=
  (t <- Py.getitem f (lit "dt_txt") ;; Py.split_head t)%res.

(** The loop [for f in data['list']] over the remaining entries. *)
Fixpoint group_loop (entries : list json) (daily : list bucket) : result (list bucket) :=
  match entries with
  | [] => Ok daily
  | f :: rest =>
      (d <- entry_date f ;; group_loop rest (setdefault_append d f daily))%res
  end.

Definition group_by_day (data : json) : result (list bucket) :=
  (l <- Py.getitem data (lit "list") ;;
   entries <- Py.iter l ;;
   group_loop entries [])%res.

(** ["12:00:00" in x['dt_txt']] *)
Definition is_noon (x : json) : result bool :=
  (t <- Py.getitem x (lit "dt_txt") ;; Py.contains (lit "12:00:00") t)%res.

(** [next((x for x in forecasts if ...), default)] *)
Fixpoint first_noon (forecasts : list json) (default : json) : result json :=
  match forecasts with
  | [] => Ok default
  | x :: rest =>
      (b <- is_noon x ;; if b then Ok x else first_noon rest default)%res
  end.

(** The entry [mid] of one bucket; the default argument is evaluated
    before the generator is advanced. *)
Definition representative (forecasts : list json) : result json :=
  (default <- Py.index (JArr forecasts) (length forecasts / 2) ;;
   first_noon forecasts default)%res.

(** The buckets the card loop visits: [list(daily.items())[:5]]. *)
Definition card_buckets (daily : list bucket) : list bucket := firstn 5 daily.

Fixpoint select (buckets : list bucket) : result (list (pystr * json)) :=
  match buckets with
  | [] => Ok []
  | (date, forecasts) :: rest =>
      (mid <- representative forecasts ;;
       cards <- select rest ;;
       Ok ((date, mid) :: cards))%res
  end.

(** Date and representative entry of every card, in display order. *)
Definition daily_representatives (data : json) : result (list (pystr * json)) :=
  (daily <- group_by_day data ;; select (card_buckets daily))%res.

(** The dates of a list of entries, when every entry has one. *)
Fixpoint entry_dates (entries : list json) : result (list pystr) :=
  match entries with
  | [] => Ok []
  | f :: rest =>
      (d <- entry_date f ;; ds <- entry_dates rest ;; Ok (d :: ds))%res
  end.

(** Number of distinct calendar days a list of dates spans. *)
Definition distinct_days (dates : list pystr) : nat :=
  length (nodup (list_eq_dec N.eq_dec) dates).

(** The entries of [entries] dated [d], in list order. *)
Fixpoint entries_of_day (d : pystr) (entries : list json) : list json :=
  match entries with
  | [] => []
  | f :: rest =>
      match entry_date f with
      | Ok d' => if PyStr.eqb d' d then f :: entries_of_day d rest
                 else entries_of_day d rest
      | Raise _ => entries_of_day d rest
      end
  end.

(** [daily.get(d, [])] *)
Fixpoint bucket_of (d : pystr) (daily : list bucket) : list json :=
  match daily with
  | [] => []
  | (k, fs) :: rest => if PyStr.eqb k d then fs else bucket_of d rest
  end.

(** [x] has a date: [x['dt_txt'].split(" ")[0]] evaluates. *)
Definition dated (x : json) : Prop := exists d, entry_date x = Ok d.

(** The timestamp text of [x] contains the exact time 12:00:00. *)
Definition noon_entry (x : json) : Prop :=
  exists t, Py.getitem x (lit "dt_txt") = Ok (JStr t)
            /\ PyStr.contains (lit "12:00:00") t = true.

End Aggregator.
Import Aggregator.

(** ** Effects: the outside world, the widgets and the console *)

(** One [requests.get] call. *)
Record request : Type := mkRequest {
  url : pystr;
  params : list (pystr * option pystr);
  timeout : option nat
}.

(** What a completed request exposes: the HTTP status, the outcome of
    [response.json()] and the raw body. *)
Record response : Type := mkResponse {
  status_code : Z;
  json_body : result json;
  content : list N
}.

(** A decoded, resized image ready for a label. *)
Definition photo : Type := list N.

Inductive label : Type :=
| lbl_city | lbl_date | lbl_temp | lbl_desc
| lbl_stat_wind | lbl_stat_humid | lbl_stat_press | lbl_stat_feels.

(** Values of one row of the hourly table. *)
Record table_row : Type := mkRow {
  row_time : pystr;
  row_temp : pystr;
  row_weather : pystr;
  row_wind : pystr;
  row_humidity : pystr
}.

(** Observable actions of the callbacks, in program order. *)
Inductive event : Type :=
| HttpGet (req : request)                       (* requests.get(...) *)
| ShowWarning (title : pystr) (message : json)  (* messagebox.showwarning *)
| ShowError (title : pystr) (message : json)    (* messagebox.showerror *)
| MapPosition (lat lon : json)                  (* map_widget.set_position *)
| MapMarker (lat lon text : json)               (* map_widget.set_marker *)
| LabelText (l : label) (text : json)           (* lbl.config(text=...) *)
| IconImage (p : photo)                         (* lbl_icon.config(image=...) *)
| ForecastClear                                 (* destroy the children of forecast_container *)
| DayFrame (column : nat)
| DayName (text : pystr)
| DayIcon (p : photo)
| DayIconFallback
| DayTemp (text : pystr)
| TableClear                                    (* delete every item of the table *)
| TableInsert (r : table_row)                   (* table.insert("", "end", values=...) *)
| GenerateContent (model_name prompt : pystr)   (* GenerativeModel(...).generate_content(...) *)
| Print (line : pystr)                          (* print(...); writing to the console is taken to succeed *)
| EnterAnalyze (weather_data forecast_data : json) (* entry into analyze_weather_with_ai (call trace, not an effect) *)
| AdvisoryText (text : pystr).                  (* display_ai_analysis *)

Definition is_dialog (ev : event) : bool :=
  match ev with
  | ShowWarning _ _ | ShowError _ _ => true
  | _ => false
  end.

Definition is_network (ev : event) : bool :=
  match ev with
  | HttpGet _ | GenerateContent _ _ => true
  | _ => false
  end.

Definition dialogs (evs : list event) : list event := filter is_dialog evs.

(** Everything the program takes from its libraries and surroundings. *)
Record Env (World : Type) : Type := mkEnv {
  (* network and remote services; each call may change the world *)
  requests_get : request -> World -> result response * World;
  generate_content : pystr -> pystr -> World -> result pystr * World;
  (* Image.open, resize and ImageTk.PhotoImage on a body, for a side length *)
  decode_photo : list N -> nat -> result photo;
  (* the map widget *)
  map_set_position : json -> json -> World -> result unit * World;
  map_set_marker : json -> json -> json -> World -> result unit * World;
  (* datetime.now().strftime("%A, %d %B %Y") *)
  now_text : World -> pystr;
  (* os.getenv("weather_api") *)
  API_KEY : option pystr;
  (* str(v) *)
  py_str : json -> pystr;
  (* str(int(v)) *)
  int_text : json -> result pystr;
  (* format(v, ".1f") *)
  format_1f : json -> result pystr;
  (* datetime.fromtimestamp(v).strftime(fmt) *)
  fromtimestamp_text : pystr -> json -> result pystr;
  (* datetime.strptime(s, "%Y-%m-%d").strftime("%a") *)
  weekday_name : pystr -> result pystr;
  (* s.title() *)
  title_case : pystr -> pystr
}.

(** The environment [E] with another network and another image decoder. *)
Definition with_network {World} (E : Env World)
    (rg : request -> World -> result response * World)
    (dp : list N -> nat -> result photo) : Env World :=
  mkEnv rg (generate_content E) dp (map_set_position E) (map_set_marker E)
        (now_text E) (API_KEY E) (py_str E) (int_text E) (format_1f E)
        (fromtimestamp_text E) (weekday_name E) (title_case E).

(** What one run of a piece of code leaves behind. *)
Record outcome (World A : Type) : Type := mkOutcome {
  returned : result A;
  events : list event;
  world : World
}.

Module Run.
Section Monad.
Variable World : Type.

Definition M (A : Type) : Type := World -> outcome World A.

Definition ret {A} (a : A) : M A := fun w => mkOutcome (Ok a) [] w.

Definition lift {A} (r : result A) : M A := fun w => mkOutcome r [] w.

Definition emit (ev : event) : M unit := fun w => mkOutcome (Ok tt) [ev] w.

(** Read something off the world without changing it. *)
Definition ask {A} (f : World -> A) : M A := fun w => mkOutcome (Ok (f w)) [] w.

Definition bind {A B} (m : M A) (k : A -> M B) : M B :=
  fun w =>
    let o := m w in
    match returned o with
    | Ok a =>
        let o' := k a (world o) in
        mkOutcome (returned o') (events o ++ events o') (world o')
    | Raise e => mkOutcome (Raise e) (events o) (world o)
    end.

(** A call to the outside, logged as [ev]. *)
Definition call {A} (ev : event) (f : World -> result A * World) : M A :=
  fun w => let rw := f w in mkOutcome (fst rw) [ev] (snd rw).

(** [try: body  except <class> as e: handler e], for the classes
    [catches] accepts. *)
Definition try_except {A} (catches : exn -> bool) (body : M A) (handler : exn -> M A) : M A :=
  fun w =>
    let o := body w in
    match returned o with
    | Ok a => o
    | Raise e =>
        if catches e then
          let o' := handler e (world o) in
          mkOutcome (returned o') (events o ++ events o') (world o')
        else o
    end.
End Monad.
End Run.
Import Run.

Declare Scope run_scope.
Delimit Scope run_scope with run.
Notation "x <- m ;; k" := (bind m (fun x => k))
  (at level 100, m at next level, right associativity) : run_scope.
Notation "m ;;; k" := (bind m (fun _ => k))
  (at level 100, right associativity) : run_scope.

(** [except Exception] and the bare [except:] on the exceptions modelled. *)
Definition any_exception (e : exn) : bool := true.

(** ** The program *)

Definition nl : pystr := [10%N].
Definition degree : pystr := [176%N].

Definition BASE_URL : pystr := lit "https://api.openweathermap.org/data/2.5/weather".
Definition FORECAST_URL : pystr := lit "http://api.openweathermap.org/data/2.5/forecast".

Definition models_to_try : list pystr :=
  [ lit "gemini-2.0-flash-lite";
    lit "gemini-flash-latest";
    lit "gemini-2.0-flash";
    lit "gemini-2.0-flash-exp" ].

(** [chr(10).join(lines)] *)
Fixpoint join_lines (lines : list pystr) : pystr :=
  match lines with
  | [] => []
  | [l] => l
  | l :: rest => l ++ nl ++ join_lines rest
  end.

Fixpoint map_result {A B} (f : A -> result B) (l : list A) : result (list B) :=
  match l with
  | [] => Ok []
  | a :: rest => (b <- f a ;; bs <- map_result f rest ;; Ok (b :: bs))%res
  end.

(** [str(last_error)] *)
Definition str_last_error (last_error : option exn) : pystr :=
  match last_error with
  | None => lit "None"
  | Some e => detail e
  end.

Definition unavailable_message (last_error : option exn) : pystr :=
  lit "AI Analysis currently unavailable (Quota limit reached). Please try again later."
  ++ nl ++ lit "Details: " ++ str_last_error last_error.

Definition input_warning : event :=
  ShowWarning (lit "Input error") (JStr (lit "Please enter a city name.")).

Definition network_error (e : exn) : event :=
  ShowError (lit "Network error")
            (JStr (lit "Could not reach server:" ++ nl ++ detail e)).

Section Program.
Variable World : Type.
Variable E : Env World.

Local Open Scope run_scope.

(** *** analyze_weather_with_ai *)

(** One line of [forecast_summary]. *)
Definition forecast_line (f : json) : result pystr :=
  (dtv <- Py.getitem f (lit "dt") ;;
   dt <- fromtimestamp_text E (lit "%Y-%m-%d %H:%M") dtv ;;
   m1 <- Py.getitem f (lit "main") ;;
   temp <- Py.getitem m1 (lit "temp") ;;
   m2 <- Py.getitem f (lit "main") ;;
   feels <- Py.getitem m2 (lit "feels_like") ;;
   m3 <- Py.getitem f (lit "main") ;;
   humidity <- Py.getitem m3 (lit "humidity") ;;
   ws <- Py.getitem f (lit "weather") ;;
   w0 <- Py.index ws 0 ;;
   desc <- Py.getitem w0 (lit "description") ;;
   wd <- Py.getitem f (lit "wind") ;;
   wind_speed <- Py.getitem wd (lit "speed") ;;
   Ok (dt ++ lit ": " ++ py_str E temp ++ degree ++ lit "C (feels "
          ++ py_str E feels ++ degree ++ lit "C), " ++ py_str E desc
          ++ lit ", Humidity: " ++ py_str E humidity
          ++ lit "%, Wind: " ++ py_str E wind_speed ++ lit " m/s"))%res.

Definition forecast_summary (forecast_data : json) : result (list pystr) :=
  if Py.truthy forecast_data then
    (has_list <- Py.contains (lit "list") forecast_data ;;
     if (has_list : bool) then
       l <- Py.getitem forecast_data (lit "list") ;;
       first8 <- Py.slice_to 8 l ;;
       entries <- Py.iter first8 ;;
       map_result forecast_line entries
     else Ok [])%res
  else Ok [].

Definition build_prompt (weather_data forecast_data : json) : result pystr :=
  (current <- Py.get weather_data (lit "main") (JObj []) ;;
   wl <- Py.get weather_data (lit "weather") (JArr [JObj []]) ;;
   w0 <- Py.index wl 0 ;;
   weather_desc <- Py.get w0 (lit "description") (JStr (lit "N/A")) ;;
   city_name <- Py.get weather_data (lit "name") (JStr (lit "Unknown")) ;;
   wind <- Py.get weather_data (lit "wind") (JObj []) ;;
   summary <- forecast_summary forecast_data ;;
   temp <- Py.get current (lit "temp") (JStr (lit "N/A")) ;;
   feels <- Py.get current (lit "feels_like") (JStr (lit "N/A")) ;;
   humidity <- Py.get current (lit "humidity") (JStr (lit "N/A")) ;;
   pressure <- Py.get current (lit "pressure") (JStr (lit "N/A")) ;;
   speed <- Py.get wind (lit "speed") (JStr (lit "N/A")) ;;
   Ok (lit "You are a professional meteorologist. Analyze this weather data for "
         ++ py_str E city_name ++ lit " and provide practical advice:" ++ nl
         ++ nl
         ++ lit "CURRENT CONDITIONS:" ++ nl
         ++ lit "- Temperature: " ++ py_str E temp ++ degree ++ lit "C" ++ nl
         ++ lit "- Feels Like: " ++ py_str E feels ++ degree ++ lit "C" ++ nl
         ++ lit "- Humidity: " ++ py_str E humidity ++ lit "%" ++ nl
         ++ lit "- Pressure: " ++ py_str E pressure ++ lit " hPa" ++ nl
         ++ lit "- Weather: " ++ py_str E weather_desc ++ nl
         ++ lit "- Wind Speed: " ++ py_str E speed ++ lit " m/s" ++ nl
         ++ nl
         ++ lit "24-HOUR FORECAST:" ++ nl
         ++ join_lines summary ++ nl
         ++ nl
         ++ lit "Based on this complete weather data, provide expert advice on:" ++ nl
         ++ lit "1. Health and wellness impact" ++ nl
         ++ lit "2. Best activities for today" ++ nl
         ++ lit "3. What to wear" ++ nl
         ++ lit "4. Travel conditions" ++ nl
         ++ lit "5. Any weather warnings or precautions" ++ nl
         ++ nl
         ++ lit "Keep your response conversational and practical, around 150-200 words."))%res.

(** The loop [for model_name in models_to_try] over the remaining
    models, then the statement after it. *)
Fixpoint try_models (models : list pystr) (prompt : pystr) (last_error : option exn)
  : M World pystr :=
  match models with
  | [] => ret (unavailable_message last_error)
  | model_name :: rest =>
      try_except any_exception
        (call (GenerateContent model_name prompt) (generate_content E model_name prompt))
        (fun e =>
           emit (Print (lit "Model " ++ model_name ++ lit " failed: " ++ detail e)) ;;;
           try_models rest prompt (Some e))
  end.

Definition analyze_weather_with_ai (weather_data forecast_data : json) : M World pystr :=
  emit (EnterAnalyze weather_data forecast_data) ;;;
  try_except any_exception
    (prompt <- lift (build_prompt weather_data forecast_data) ;;
     try_models models_to_try prompt None)
    (fun e => ret (lit "AI Analysis unavailable: " ++ detail e)).

(** *** display_forecast *)

Definition icon_url (icon : json) (scale : pystr) : pystr :=
  lit "http://openweathermap.org/img/wn/" ++ py_str E icon ++ scale ++ lit ".png".

(** [requests.get(icon_url)] followed by the decoding pipeline. *)
Definition fetch_photo (icon : json) (scale : pystr) (side : nat) : M World photo :=
  let req := mkRequest (icon_url icon scale) [] None in
  icon_response <- call (HttpGet req) (requests_get E req) ;;
  lift (decode_photo E (content icon_response) side).

(** The card loop over the remaining buckets. *)
Fixpoint day_cards (buckets : list bucket) (col_idx : nat) : M World unit :=
  match buckets with
  | [] => ret tt
  | (date, forecasts) :: rest =>
      mid <- lift (representative forecasts) ;;
      temp <- lift (m <- Py.getitem mid (lit "main") ;; Py.getitem m (lit "temp"))%res ;;
      icon <- lift (ws <- Py.getitem mid (lit "weather") ;;
                    w0 <- Py.index ws 0 ;;
                    Py.getitem w0 (lit "icon"))%res ;;
      day_name <- lift (weekday_name E date) ;;
      emit (DayFrame col_idx) ;;;
      emit (DayName day_name) ;;;
      try_except any_exception
        (p <- fetch_photo icon (lit "@2x") 50 ;; emit (DayIcon p))
        (fun _ => emit DayIconFallback) ;;;
      t <- lift (int_text E temp) ;;
      emit (DayTemp (t ++ degree)) ;;;
      day_cards rest (S col_idx)
  end.

Definition display_forecast (data : json) : M World unit :=
  emit ForecastClear ;;;
  daily <- lift (group_by_day data) ;;
  day_cards (card_buckets daily) 0.

(** *** display_forecast_table *)

(** The values of the row built from one entry. *)
Definition row_of_entry (f : json) : result table_row :=
  (dtv <- Py.getitem f (lit "dt") ;;
   dt <- fromtimestamp_text E (lit "%a %H:%M") dtv ;;
   m1 <- Py.getitem f (lit "main") ;;
   tv <- Py.getitem m1 (lit "temp") ;;
   temp <- format_1f E tv ;;
   ws <- Py.getitem f (lit "weather") ;;
   w0 <- Py.index ws 0 ;;
   desc <- Py.getitem w0 (lit "description") ;;
   weather <- match desc with
              | JStr s => Ok (title_case E s)
              | _ => Raise (Py.no_attribute desc (lit "title"))
              end ;;
   wd <- Py.getitem f (lit "wind") ;;
   speed <- Py.getitem wd (lit "speed") ;;
   m2 <- Py.getitem f (lit "main") ;;
   humidity <- Py.getitem m2 (lit "humidity") ;;
   Ok (mkRow dt temp weather (py_str E speed) (py_str E humidity)))%res.

Fixpoint table_rows (entries : list json) : M World unit :=
  match entries with
  | [] => ret tt
  | f :: rest =>
      r <- lift (row_of_entry f) ;;
      emit (TableInsert r) ;;;
      table_rows rest
  end.

Definition display_forecast_table (data : json) : M World unit :=
  emit TableClear ;;;
  l <- lift (Py.getitem data (lit "list")) ;;
  first24 <- lift (Py.slice_to 24 l) ;;
  entries <- lift (Py.iter first24) ;;
  table_rows entries.

Definition display_ai_analysis (ai_text : pystr) : M World unit :=
  emit (AdvisoryText ai_text).

(** *** get_weather *)

Definition query_params (city : pystr) : list (pystr * option pystr) :=
  [ (lit "q", Some city); (lit "appid", API_KEY E); (lit "units", Some (lit "metric")) ].

Definition weather_request (city : pystr) : request :=
  mkRequest BASE_URL (query_params city) (Some 5).

Definition forecast_request (city : pystr) : request :=
  mkRequest FORECAST_URL (query_params city) (Some 5).

(** The fields lines 187-197 read out of the payload. *)
Record snapshot : Type := mkSnapshot {
  city_name : json;
  temp : json;
  humidity : json;
  pressure : json;
  feels_like : json;
  description : json;
  icon_code : json;
  wind_speed : json
}.

(** [weather_list[0].get(k) if weather_list else otherwise] *)
Definition first_weather_field (weather_list : json) (k : pystr) (otherwise : json)
  : result json :=
  if Py.truthy weather_list then
    (w0 <- Py.index weather_list 0 ;; Py.get w0 k JNull)%res
  else Ok otherwise.

Definition extract_snapshot (data : json) (city : pystr) : result snapshot :=
  (name <- Py.get data (lit "name") (JStr city) ;;
   main <- Py.get data (lit "main") (JObj []) ;;
   weather_list <- Py.get data (lit "weather") (JArr []) ;;
   wind <- Py.get data (lit "wind") (JObj []) ;;
   t <- Py.get main (lit "temp") JNull ;;
   h <- Py.get main (lit "humidity") JNull ;;
   p <- Py.get main (lit "pressure") JNull ;;
   fl <- Py.get main (lit "feels_like") JNull ;;
   d <- first_weather_field weather_list (lit "description") (JStr (lit "N/A")) ;;
   ic <- first_weather_field weather_list (lit "icon") JNull ;;
   ws <- Py.get wind (lit "speed") JNull ;;
   Ok (mkSnapshot name t h p fl d ic ws))%res.

Definition update_map (data : json) (name : json) : M World unit :=
  coord <- lift (Py.get data (lit "coord") (JObj [])) ;;
  lat <- lift (Py.get coord (lit "lat") JNull) ;;
  if Py.truthy lat then
    lon <- lift (Py.get coord (lit "lon") JNull) ;;
    if Py.truthy lon then
      call (MapPosition lat lon) (map_set_position E lat lon) ;;;
      call (MapMarker lat lon name) (map_set_marker E lat lon name)
    else ret tt
  else ret tt.

(** [description.title()] *)
Definition title_of (v : json) : result pystr :=
  match v with
  | JStr s => Ok (title_case E s)
  | _ => Raise (Py.no_attribute v (lit "title"))
  end.

Definition update_labels (s : snapshot) : M World unit :=
  emit (LabelText lbl_city (city_name s)) ;;;
  today <- ask (now_text E) ;;
  emit (LabelText lbl_date (JStr today)) ;;;
  match temp s with
  | JNull => ret tt
  | t => txt <- lift (int_text E t) ;; emit (LabelText lbl_temp (JStr (txt ++ degree)))
  end ;;;
  d <- lift (title_of (description s)) ;;
  emit (LabelText lbl_desc (JStr d)) ;;;
  emit (LabelText lbl_stat_wind (JStr (py_str E (wind_speed s) ++ lit " m/s"))) ;;;
  emit (LabelText lbl_stat_humid (JStr (py_str E (humidity s) ++ lit "%"))) ;;;
  emit (LabelText lbl_stat_press (JStr (py_str E (pressure s) ++ lit " hPa"))) ;;;
  f <- lift (format_1f E (feels_like s)) ;;
  emit (LabelText lbl_stat_feels (JStr (f ++ degree))).

(** The block under [# Update Icon]: every failure inside is dropped. *)
Definition update_icon (icon : json) : M World unit :=
  if Py.truthy icon then
    try_except any_exception
      (p <- fetch_photo icon (lit "@4x") 100 ;; emit (IconImage p))
      (fun _ => ret tt)
  else ret tt.

(** [entry] is the text of the [city_entry] widget; the result is [None]
    for a bare [return], [Some data] for [return data]. *)
Definition get_weather (entry : pystr) : M World (option json) :=
  let city := strip entry in
  match city with
  | [] => emit input_warning ;;; ret None
  | _ :: _ =>
      fetched <-
        try_except is_request_exception
          (response <- call (HttpGet (weather_request city))
                            (requests_get E (weather_request city)) ;;
           data <- lift (json_body response) ;;
           ret (Some data))
          (fun e => emit (network_error e) ;;; ret None) ;;
      match fetched with
      | None => ret None
      | Some data =>
          cod <- lift (Py.get data (lit "cod") JNull) ;;
          if negb (Py.eq_int cod 200) then
            message <- lift (Py.get data (lit "message") (JStr (lit "Unknown error"))) ;;
            emit (ShowError (lit "API error")
                            (JStr (lit "Error from API:" ++ nl ++ py_str E message))) ;;;
            ret None
          else
            s <- lift (extract_snapshot data city) ;;
            update_map data (city_name s) ;;;
            update_labels s ;;;
            update_icon (icon_code s) ;;;
            ret (Some data)
      end
  end.

(** *** get_forecast *)

Definition get_forecast (entry : pystr) : M World (option json) :=
  let city := strip entry in
  match city with
  | [] => emit input_warning ;;; ret None
  | _ :: _ =>
      try_except is_request_exception
        (response <- call (HttpGet (forecast_request city))
                          (requests_get E (forecast_request city)) ;;
         data <- lift (json_body response) ;;
         if (status_code response =? 200)%Z then
           display_forecast data ;;;
           display_forecast_table data ;;;
           ret (Some data)
         else
           message <- lift (Py.get data (lit "message")
                                   (JStr (lit "Could not fetch forecast"))) ;;
           emit (ShowError (lit "API error") message) ;;;
           ret None)
        (fun e => emit (network_error e) ;;; ret None)
  end.

(** *** get_all_data *)

(** What a fetcher returned, as the Python value it is: [None] for a
    bare [return]. *)
Definition returned_value (r : option json) : json :=
  match r with
  | None => JNull
  | Some v => v
  end.

Definition get_all_data (entry : pystr) : M World unit :=
  let city := strip entry in
  match city with
  | [] => emit input_warning ;;; ret tt
  | _ :: _ =>
      weather_result <- get_weather entry ;;
      forecast_result <- get_forecast entry ;;
      if Py.truthy (returned_value weather_result)
         && Py.truthy (returned_value forecast_result) then
        ai_analysis <- analyze_weather_with_ai (returned_value weather_result)
                                               (returned_value forecast_result) ;;
        display_ai_analysis ai_analysis
      else ret tt
  end.

End Program.

(** ** Reading a trace *)

(** The rows of the hourly table once [evs] have happened, from the rows
    [rows] it held before. *)
Fixpoint table_after (evs : list event) (rows : list table_row) : list table_row :=
  match evs with
  | [] => rows
  | TableClear :: rest => table_after rest []
  | TableInsert r :: rest => table_after rest (rows ++ [r])
  | _ :: rest => table_after rest rows
  end.

(** The models a trace sent a generation request to, in order. *)
Fixpoint attempted (evs : list event) : list pystr :=
  match evs with
  | [] => []
  | GenerateContent model_name _ :: rest => model_name :: attempted rest
  | _ :: rest => attempted rest
  end.

Definition is_enter_analyze (ev : event) : bool :=
  match ev with
  | EnterAnalyze _ _ => true
  | _ => false
  end.

(** [analyze_weather_with_ai] was called somewhere in the trace. *)
Definition advisory_invoked (evs : list event) : bool := existsb is_enter_analyze evs.

(** The status test of [get_weather]: [data.get("cod") == 200]. *)
Definition payload_success (data : json) : bool :=
  match Py.get data (lit "cod") JNull with
  | Ok cod => Py.eq_int cod 200
  | Raise _ => false
  end.

(** Two runs that agree on what is returned and on the dialogs shown. *)
Definition same_result_and_dialogs {World A} (o1 o2 : outcome World A) : Prop :=
  returned o1 = returned o2 /\ dialogs (events o1) = dialogs (events o2).

(** The message [get_forecast] shows for an object payload. *)
Definition forecast_error_message (fields : list (pystr * json)) : json :=
  match Py.lookup (lit "message") fields with
  | Some m => m
  | None => JStr (lit "Could not fetch forecast")
  end.

(** The error contract of [get_weather] read on [get_forecast]: with a
    decoded payload in hand, a payload status other than success gives an
    "API error" dialog and no data, and data is returned only for a
    payload whose status is success. *)
Definition forecast_follows_payload_status {World} (E : Env World) : Prop :=
  forall entry w resp w1 data,
    strip entry <> [] ->
    requests_get E (forecast_request E (strip entry)) w = (Ok resp, w1) ->
    json_body resp = Ok data ->
    let o := get_forecast E entry w in
    (payload_success data = false ->
       returned o = Ok None
       /\ exists message, In (ShowError (lit "API error") message) (events o))
    /\ (returned o = Ok (Some data) -> payload_success data = true).

(** A piece of code that never emits an event of the class [P]. *)
Definition quiet {World A} (P : event -> bool) (m : M World A) : Prop :=
  forall w, existsb P (events (m w)) = false.

(** ** Concrete payloads and a scripted world, for running the model *)

Module Demo.

(** A forecast entry stamped [stamp], [offset] three-hour steps after
    the first one. *)
Definition entry (stamp : string) (offset : Z) : json :=
  JObj [ (lit "dt", JInt (1704067200 + 10800 * offset));
         (lit "main", JObj [ (lit "temp", JInt (18 + offset));
                             (lit "feels_like", JInt (17 + offset));
                             (lit "humidity", JInt 60) ]);
         (lit "weather", JArr [ JObj [ (lit "description", JStr (lit "light rain"));
                                       (lit "icon", JStr (lit "10d")) ] ]);
         (lit "wind", JObj [ (lit "speed", JInt 4) ]);
         (lit "dt_txt", JStr (lit stamp)) ].

Definition six_days : list json :=
  [ entry "2024-01-01 18:00:00" 0; entry "2024-01-01 21:00:00" 1;
    entry "2024-01-02 09:00:00" 5; entry "2024-01-02 12:00:00" 6;
    entry "2024-01-02 15:00:00" 7;
    entry "2024-01-03 12:00:00" 14;
    entry "2024-01-04 12:00:00" 22;
    entry "2024-01-05 12:00:00" 30;
    entry "2024-01-06 00:00:00" 34 ].

Definition forecast_payload : json :=
  JObj [ (lit "cod", JStr (lit "200")); (lit "list", JArr six_days) ].

Definition weather_payload : json :=
  JObj [ (lit "cod", JInt 200);
         (lit "name", JStr (lit "Bangalore"));
         (lit "main", JObj [ (lit "temp", JInt 24); (lit "feels_like", JInt 25);
                             (lit "humidity", JInt 61); (lit "pressure", JInt 1012) ]);
         (lit "weather", JArr [ JObj [ (lit "description", JStr (lit "scattered clouds"));
                                       (lit "icon", JStr (lit "03d")) ] ]);
         (lit "wind", JObj [ (lit "speed", JInt 3) ]);
         (lit "coord", JObj [ (lit "lat", JInt 13); (lit "lon", JInt 78) ]) ].

(** What the forecast endpoint could answer for an unknown city if it
    kept the HTTP status at 200. *)
Definition not_found_payload : json :=
  JObj [ (lit "cod", JStr (lit "404"));
         (lit "message", JStr (lit "city not found"));
         (lit "list", JArr []) ].

(** A world that plays back scripted answers: one per request, one per
    generation call. *)
Record World : Type := mkWorld {
  http_script : list (result response);
  model_script : list (result pystr)
}.

Definition unreachable : exn := mkExn RequestException (lit "connection refused").
Definition quota (n : string) : exn := mkExn OtherException (lit "429 quota exceeded " ++ lit n).

Definition play_request (_ : request) (w : World) : result response * World :=
  match http_script w with
  | [] => (Raise unreachable, w)
  | r :: rest => (r, mkWorld rest (model_script w))
  end.

Definition play_generate (_ _ : pystr) (w : World) : result pystr * World :=
  match model_script w with
  | [] => (Raise (quota "end"), w)
  | r :: rest => (r, mkWorld (http_script w) rest)
  end.

Definition decimal (z : Z) : pystr := lit (NilZero.string_of_int (Z.to_int z)).

Definition str (v : json) : pystr :=
  match v with
  | JNull => lit "None"
  | JBool true => lit "True"
  | JBool false => lit "False"
  | JInt z => decimal z
  | JFloat _ => lit "<float>"
  | JStr s => s
  | JArr _ => lit "[...]"
  | JObj _ => lit "{...}"
  end.

Definition bad_operand (v : json) : exn :=
  mkExn TypeError (lit "unsupported operand: " ++ Py.type_name v).

Definition int_of (v : json) : result pystr :=
  match v with
  | JInt z => Ok (decimal z)
  | _ => Raise (bad_operand v)
  end.

Definition one_decimal (v : json) : result pystr :=
  match v with
  | JInt z => Ok (decimal z ++ lit ".0")
  | _ => Raise (bad_operand v)
  end.

Definition stamp_text (fmt : pystr) (v : json) : result pystr :=
  match v with
  | JInt z => Ok (lit "@" ++ decimal z)
  | _ => Raise (bad_operand v)
  end.

Definition weekday (s : pystr) : result pystr :=
  if (length s =? 10)%nat then Ok (lit "Day") else Raise (mkExn ValueError (lit "bad date")).

Definition decode (body : list N) (side : nat) : result photo :=
  match body with
  | [] => Raise (mkExn OtherException (lit "cannot identify image file"))
  | _ => Ok body
  end.

Definition env : Env World :=
  mkEnv play_request play_generate decode
        (fun _ _ w => (Ok tt, w)) (fun _ _ _ w => (Ok tt, w))
        (fun _ => lit "Monday, 01 January 2024")
        (Some (lit "key"))
        str int_of one_decimal stamp_text weekday (fun s => s).

Definition http_ok (status : Z) (payload : json) : result response :=
  Ok (mkResponse status (Ok payload) []).

Definition icon_ok : result response := Ok (mkResponse 200 (Raise (mkExn RequestException (lit "not JSON"))) [137%N; 80%N]).

(** A network on which only the weather endpoint answers, and a decoder
    that rejects every image. *)
Definition icons_down (req : request) (w : World) : result response * World :=
  if PyStr.eqb (url req) BASE_URL then play_request req w
  else (Raise unreachable, w).

Definition no_decode (_ : list N) (_ : nat) : result photo :=
  Raise (mkExn OtherException (lit "cannot identify image file")).

End Demo.

(** ** Further readings of payloads and traces *)

(** The distinct dates of [dates], each at its first occurrence, leaving
    out those already in [seen]. *)
Fixpoint first_seen_from (seen dates : list pystr) : list pystr :=
  match dates with
  | [] => []
  | d :: rest =>
      if existsb (PyStr.eqb d) seen then first_seen_from seen rest
      else d :: first_seen_from (seen ++ [d]) rest
  end.

Definition first_seen (dates : list pystr) : list pystr := first_seen_from [] dates.

(** The grid columns of the day frames a trace created, in order. *)
Definition frame_columns (evs : list event) : list nat :=
  flat_map (fun ev => match ev with DayFrame c => [c] | _ => [] end) evs.

Definition is_day_frame (ev : event) : bool :=
  match ev with DayFrame _ => true | _ => false end.

(** The icon slots a trace filled, with an image or with the placeholder. *)
Definition is_day_icon (ev : event) : bool :=
  match ev with DayIcon _ | DayIconFallback => true | _ => false end.

Definition is_map_event (ev : event) : bool :=
  match ev with MapPosition _ _ | MapMarker _ _ _ => true | _ => false end.

(** The requests a trace sent with [requests.get], in order. *)
Definition requests_of (evs : list event) : list request :=
  flat_map (fun ev => match ev with HttpGet r => [r] | _ => [] end) evs.

(** What a run of the card loop drew: [n] frames in the columns
    [col, col+1, ...], one icon slot per frame, at most [limit] of them and
    exactly [limit] when the run completed. *)
Definition cards_drawn {World} (col limit : nat) (o : outcome World unit) : Prop :=
  exists n,
    n <= limit
    /\ frame_columns (events o) = seq col n
    /\ length (filter is_day_icon (events o)) = n
    /\ (returned o = Ok tt -> n = limit).

(** The request [req], sent in the world [w], gives no payload because of
    the exception [e]: the request itself raises it, or decoding the
    answer does. *)
Definition fetch_failure {World} (E : Env World) (req : request) (w : World) (e : exn) : Prop :=
  fst (requests_get E req w) = Raise e
  \/ exists resp, fst (requests_get E req w) = Ok resp /\ json_body resp = Raise e.

(** The value of a result that is known to be [Ok]. *)
Definition ok_or {A} (default : A) (r : result A) : A :=
  match r with
  | Ok a => a
  | Raise _ => default
  end.

(** The lines a trace printed. *)
Definition printed (evs : list event) : list pystr :=
  flat_map (fun ev => match ev with Print l => [l] | _ => [] end) evs.

(** * Properties *)

(** ** Text *)

Module PyStrFacts.

Lemma eqb_eq (a b : pystr) : PyStr.eqb a b = true <-> a = b.
Proof.
  unfold PyStr.eqb. destruct (list_eq_dec N.eq_dec a b); split; congruence.
Qed.

Lemma eqb_neq (a b : pystr) : PyStr.eqb a b = false <-> a <> b.
Proof.
  unfold PyStr.eqb. destruct (list_eq_dec N.eq_dec a b); split; congruence.
Qed.

Lemma eqb_refl (a : pystr) : PyStr.eqb a a = true.
Proof. now apply eqb_eq. Qed.

Lemma eqb_sym (a b : pystr) : PyStr.eqb a b = PyStr.eqb b a.
Proof.
  destruct (PyStr.eqb b a) eqn:H.
  - apply eqb_eq in H. subst. apply eqb_refl.
  - apply eqb_neq in H. apply eqb_neq. congruence.
Qed.

End PyStrFacts.
Import PyStrFacts.

(** ** Forecast aggregator *)

Module AggregatorFacts.

(** *** One insertion *)

Lemma setdefault_append_keys d f daily x :
  In x (map fst (setdefault_append d f daily)) <-> In x (map fst daily) \/ x = d.
Proof.
  induction daily as [|[k fs] rest IH]; simpl.
  - intuition.
  - destruct (PyStr.eqb k d) eqn:Hkd; simpl.
    + apply eqb_eq in Hkd. subst. intuition.
    + rewrite IH. intuition.
Qed.

Lemma setdefault_append_NoDup d f daily :
  NoDup (map fst daily) -> NoDup (map fst (setdefault_append d f daily)).
Proof.
  induction daily as [|[k fs] rest IH]; simpl; intros Hnd.
  - constructor; [intros [] | constructor].
  - inversion Hnd as [|? ? Hnotin Hrest]; subst.
    destruct (PyStr.eqb k d) eqn:Hkd; simpl.
    + constructor; assumption.
    + apply eqb_neq in Hkd. constructor; [|now apply IH].
      rewrite setdefault_append_keys. intros [Hin | ->]; [now apply Hnotin | congruence].
Qed.

Lemma setdefault_append_bucket d f daily x :
  bucket_of x (setdefault_append d f daily)
  = if PyStr.eqb d x then bucket_of x daily ++ [f] else bucket_of x daily.
Proof.
  induction daily as [|[k fs] rest IH]; simpl.
  - destruct (PyStr.eqb d x); reflexivity.
  - destruct (PyStr.eqb k d) eqn:Hkd; simpl.
    + apply eqb_eq in Hkd. subst k.
      destruct (PyStr.eqb d x); reflexivity.
    + destruct (PyStr.eqb k x) eqn:Hkx.
      * apply eqb_eq in Hkx. subst k. rewrite eqb_sym, Hkd. reflexivity.
      * apply IH.
Qed.

Lemma bucket_of_In d fs daily :
  NoDup (map fst daily) -> In (d, fs) daily -> bucket_of d daily = fs.
Proof.
  induction daily as [|[k gs] rest IH]; simpl; intros Hnd Hin; [contradiction|].
  inversion Hnd as [|? ? Hnotin Hrest]; subst.
  destruct Hin as [Heq | Hin].
  - inversion Heq; subst. now rewrite eqb_refl.
  - destruct (PyStr.eqb k d) eqn:Hkd.
    + apply eqb_eq in Hkd. subst k. exfalso. apply Hnotin.
      change d with (fst (d, fs)). now apply in_map.
    + now apply IH.
Qed.

(** *** The grouping loop *)

Lemma group_loop_total entries : forall dates acc,
  entry_dates entries = Ok dates ->
  exists daily, group_loop entries acc = Ok daily.
Proof.
  induction entries as [|f rest IH]; simpl; intros dates acc H.
  - eauto.
  - destruct (entry_date f) as [d|e]; simpl in *; [|discriminate].
    destruct (entry_dates rest) as [ds|e] eqn:Hds; simpl in *; [|discriminate].
    eapply IH. reflexivity.
Qed.

Lemma group_loop_keys entries : forall dates acc daily,
  entry_dates entries = Ok dates ->
  group_loop entries acc = Ok daily ->
  forall x, In x (map fst daily) <-> In x (map fst acc) \/ In x dates.
Proof.
  induction entries as [|f rest IH]; simpl; intros dates acc daily Hd Hg x.
  - inversion Hd; inversion Hg; subst. simpl. intuition.
  - destruct (entry_date f) as [d|e]; simpl in *; [|discriminate].
    destruct (entry_dates rest) as [ds|e] eqn:Hds; simpl in *; [|discriminate].
    inversion Hd; subst. rewrite (IH ds _ _ eq_refl Hg x).
    rewrite setdefault_append_keys. simpl. intuition.
Qed.

Lemma group_loop_NoDup entries : forall acc daily,
  group_loop entries acc = Ok daily ->
  NoDup (map fst acc) -> NoDup (map fst daily).
Proof.
  induction entries as [|f rest IH]; simpl; intros acc daily Hg Hnd.
  - now inversion Hg; subst.
  - destruct (entry_date f) as [d|e]; simpl in *; [|discriminate].
    eapply IH; [eassumption|]. now apply setdefault_append_NoDup.
Qed.

Lemma group_loop_bucket entries : forall acc daily,
  group_loop entries acc = Ok daily ->
  forall x, bucket_of x daily = bucket_of x acc ++ entries_of_day x entries.
Proof.
  induction entries as [|f rest IH]; simpl; intros acc daily Hg x.
  - inversion Hg; subst. now rewrite app_nil_r.
  - destruct (entry_date f) as [d|e]; simpl in *; [|discriminate].
    rewrite (IH _ _ Hg x), setdefault_append_bucket.
    destruct (PyStr.eqb d x); [now rewrite <- app_assoc | reflexivity].
Qed.

Lemma group_loop_dates entries : forall acc daily,
  group_loop entries acc = Ok daily ->
  exists dates, entry_dates entries = Ok dates.
Proof.
  induction entries as [|f rest IH]; simpl; intros acc daily Hg.
  - eauto.
  - destruct (entry_date f) as [d|e]; simpl in *; [|discriminate].
    destruct (IH _ _ Hg) as [ds ->]. simpl. eauto.
Qed.

(** *** The entries of one day *)

Lemma entries_of_day_In d entries x :
  In x (entries_of_day d entries) -> In x entries /\ entry_date x = Ok d.
Proof.
  induction entries as [|f rest IH]; simpl; [contradiction|].
  destruct (entry_date f) as [d'|e] eqn:Hf.
  - destruct (PyStr.eqb d' d) eqn:Hd.
    + apply eqb_eq in Hd. subst d'. intros [<- | Hin]; [tauto | apply IH in Hin; tauto].
    + intros Hin. apply IH in Hin. tauto.
  - intros Hin. apply IH in Hin. tauto.
Qed.

Lemma entries_of_day_nonempty entries : forall dates d,
  entry_dates entries = Ok dates -> In d dates -> entries_of_day d entries <> [].
Proof.
  induction entries as [|f rest IH]; simpl; intros dates d Hd Hin.
  - inversion Hd; subst. contradiction.
  - destruct (entry_date f) as [d'|e]; simpl in *; [|discriminate].
    destruct (entry_dates rest) as [ds|e] eqn:Hds; simpl in *; [|discriminate].
    inversion Hd; subst.
    destruct (PyStr.eqb d' d) eqn:Heq; [discriminate|].
    apply eqb_neq in Heq. destruct Hin as [-> | Hin]; [congruence|].
    now apply (IH ds).
Qed.

(** *** The representative of a bucket *)

Lemma entry_date_is_noon x d :
  entry_date x = Ok d ->
  exists t, Py.getitem x (lit "dt_txt") = Ok (JStr t)
            /\ is_noon x = Ok (PyStr.contains (lit "12:00:00") t).
Proof.
  unfold entry_date, is_noon.
  destruct (Py.getitem x (lit "dt_txt")) as [t|e]; simpl; [|discriminate].
  destruct t; simpl; try discriminate. eauto.
Qed.

Lemma noon_entry_decide x : noon_entry x \/ ~ noon_entry x.
Proof.
  unfold noon_entry.
  destruct (Py.getitem x (lit "dt_txt")) as [t|e].
  - destruct t as [| | | |s| |];
      try (right; intros (t' & Ht & _); discriminate).
    destruct (PyStr.contains (lit "12:00:00") s) eqn:Hc.
    + left. eauto.
    + right. intros (t' & Ht & Hc'). inversion Ht; subst. congruence.
  - right. intros (t' & Ht & _). discriminate.
Qed.

Lemma classic_noon forecasts :
  (exists x, In x forecasts /\ noon_entry x)
  \/ ~ (exists x, In x forecasts /\ noon_entry x).
Proof.
  induction forecasts as [|x rest IH].
  - right. intros (x & [] & _).
  - destruct (noon_entry_decide x) as [Hx | Hx].
    + left. exists x. simpl. auto.
    + destruct IH as [(y & Hy & Hny) | Hnone].
      * left. exists y. simpl. auto.
      * right. intros (y & [<- | Hy] & Hny); [contradiction|].
        apply Hnone. eauto.
Qed.

Lemma first_noon_spec forecasts : forall default,
  Forall dated forecasts ->
  exists mid, first_noon forecasts default = Ok mid
    /\ ((exists x, In x forecasts /\ noon_entry x) -> In mid forecasts /\ noon_entry mid)
    /\ (~ (exists x, In x forecasts /\ noon_entry x) -> mid = default).
Proof.
  induction forecasts as [|x rest IH]; simpl; intros default Hall.
  - exists default. split; [reflexivity|]. split; [intros (x & [] & _) | reflexivity].
  - inversion Hall as [|? ? [d Hd] Hrest]; subst.
    destruct (entry_date_is_noon _ Hd) as (t & Ht & Hn). rewrite Hn. simpl.
    destruct (PyStr.contains (lit "12:00:00") t) eqn:Hc.
    + exists x. split; [reflexivity|].
      assert (Hx : noon_entry x) by (exists t; auto).
      split; [intros _; auto | intros Hno; exfalso; apply Hno; exists x; auto].
    + destruct (IH default Hrest) as (mid & Hmid & Hyes & Hno).
      exists mid. split; [assumption|].
      assert (Hx : ~ noon_entry x).
      { intros (t' & Ht' & Hc'). rewrite Ht in Ht'. inversion Ht'; subst. congruence. }
      split.
      * intros (y & [<- | Hy] & Hny); [contradiction|].
        destruct Hyes as [Hin Hnoon]; [exists y; auto|]. auto.
      * intros Hnone. apply Hno. intros (y & Hy & Hny). apply Hnone. exists y; auto.
Qed.

Lemma median_exists (forecasts : list json) :
  forecasts <> [] ->
  exists m, nth_error forecasts (length forecasts / 2) = Some m.
Proof.
  intros Hne.
  destruct (nth_error forecasts (length forecasts / 2)) as [m|] eqn:Hn; [eauto|].
  apply nth_error_None in Hn. exfalso.
  destruct forecasts as [|x rest]; [congruence|].
  assert (length (x :: rest) / 2 < length (x :: rest)).
  { apply Nat.div_lt; simpl; lia. }
  lia.
Qed.

Lemma representative_spec forecasts :
  forecasts <> [] -> Forall dated forecasts ->
  exists mid, representative forecasts = Ok mid
    /\ In mid forecasts
    /\ ((exists x, In x forecasts /\ noon_entry x) -> noon_entry mid)
    /\ (~ (exists x, In x forecasts /\ noon_entry x) ->
        nth_error forecasts (length forecasts / 2) = Some mid).
Proof.
  intros Hne Hall. destruct (median_exists Hne) as [m Hm].
  unfold representative, Py.index. rewrite Hm. simpl rbind.
  destruct (first_noon_spec m Hall) as (mid & Hmid & Hyes & Hno).
  exists mid. split; [assumption|].
  destruct (classic_noon forecasts) as [Hex | Hnone].
  - destruct (Hyes Hex). repeat split; auto. intros; contradiction.
  - rewrite (Hno Hnone). repeat split; auto.
    + eapply nth_error_In; eassumption.
    + intros; contradiction.
Qed.

(** *** Buckets produced by the grouping *)

Lemma In_firstn {A} (n : nat) (l : list A) (x : A) : In x (firstn n l) -> In x l.
Proof.
  intros H. rewrite <- (firstn_skipn n l). apply in_or_app. now left.
Qed.

Lemma NoDup_firstn {A} (n : nat) (l : list A) : NoDup l -> NoDup (firstn n l).
Proof.
  intros H. rewrite <- (firstn_skipn n l) in H. eapply NoDup_app_remove_r, H.
Qed.

Lemma grouped_bucket entries daily date forecasts :
  group_loop entries [] = Ok daily ->
  In (date, forecasts) daily ->
  forecasts = entries_of_day date entries
  /\ forecasts <> [] /\ Forall dated forecasts.
Proof.
  intros Hg Hin.
  assert (Hnd : NoDup (map fst daily)).
  { eapply group_loop_NoDup; [eassumption | constructor]. }
  assert (Hfs : forecasts = entries_of_day date entries).
  { rewrite <- (@bucket_of_In date forecasts daily Hnd Hin).
    now rewrite (@group_loop_bucket entries [] daily Hg date). }
  destruct (@group_loop_dates entries [] daily Hg) as [dates Hdates].
  split; [assumption|]. subst forecasts. split.
  - eapply entries_of_day_nonempty; [eassumption|].
    assert (Hk : In date (map fst daily)).
    { change date with (fst (date, entries_of_day date entries)). now apply in_map. }
    apply (@group_loop_keys entries dates [] daily Hdates Hg date) in Hk.
    destruct Hk as [[] | Hk]. exact Hk.
  - apply Forall_forall. intros x Hx. apply entries_of_day_In in Hx.
    exists date. tauto.
Qed.

Lemma select_spec buckets :
  (forall d fs, In (d, fs) buckets -> fs <> [] /\ Forall dated fs) ->
  exists cards, select buckets = Ok cards
    /\ map fst cards = map fst buckets
    /\ forall d mid, In (d, mid) cards ->
         exists fs, In (d, fs) buckets /\ representative fs = Ok mid /\ In mid fs.
Proof.
  induction buckets as [|[d fs] rest IH]; simpl; intros Hall.
  - exists []. repeat split; auto. intros ? ? [].
  - destruct (Hall d fs (or_introl eq_refl)) as [Hne Hdated].
    destruct (representative_spec Hne Hdated) as (mid & Hmid & Hin & _).
    rewrite Hmid. simpl.
    destruct IH as (cards & Hsel & Hkeys & Hcards);
      [intros d0 fs0 H0; apply (Hall d0 fs0); auto|].
    rewrite Hsel. simpl. exists ((d, mid) :: cards). split; [reflexivity|].
    split; [simpl; congruence|].
    intros d' mid' [Heq | Hin'].
    + inversion Heq; subst. exists fs. auto.
    + destruct (Hcards _ _ Hin') as (fs' & ? & ? & ?). exists fs'. auto.
Qed.

End AggregatorFacts.

Import AggregatorFacts.

(** C1. For a forecast response whose entry list spans at least five
    distinct calendar days, the grouping of [display_forecast] yields
    exactly five cards, keyed by pairwise distinct dates, and the
    representative entry of each card is one of the entries of the list
    that carry the card's date. *)
Theorem five_daily_buckets (data : json) (entries : list json) (dates : list pystr) :
  Py.getitem data (lit "list") = Ok (JArr entries) ->
  entry_dates entries = Ok dates ->
  5 <= distinct_days dates ->
  exists cards,
    daily_representatives data = Ok cards
    /\ length cards = 5
    /\ NoDup (map fst cards)
    /\ forall date mid, In (date, mid) cards -> In mid (entries_of_day date entries).
Proof.
  intros Hlist Hdates Hspan.
  unfold daily_representatives, group_by_day. rewrite Hlist. simpl rbind.
  destruct (@group_loop_total entries dates [] Hdates) as [daily Hg].
  rewrite Hg. simpl rbind.
  assert (Hnd : NoDup (map fst daily)).
  { eapply group_loop_NoDup; [eassumption | constructor]. }
  assert (Hlen : 5 <= length (map fst daily)).
  { etransitivity; [exact Hspan|].
    unfold distinct_days. apply NoDup_incl_length; [apply NoDup_nodup|].
    intros d Hd. apply nodup_In in Hd.
    apply (@group_loop_keys entries dates [] daily Hdates Hg d). now right. }
  rewrite length_map in Hlen.
  destruct (@select_spec (card_buckets daily)) as (cards & Hsel & Hkeys & Hcards).
  { intros d fs Hin. apply In_firstn in Hin.
    destruct (@grouped_bucket entries daily d fs Hg Hin) as (_ & ? & ?). auto. }
  exists cards. split; [assumption|]. split; [|split].
  - rewrite <- (length_map fst cards), Hkeys, length_map.
    unfold card_buckets. rewrite length_firstn. apply Nat.min_l. exact Hlen.
  - rewrite Hkeys. unfold card_buckets. rewrite <- firstn_map. now apply NoDup_firstn.
  - intros date mid Hin.
    destruct (Hcards _ _ Hin) as (fs & Hfs & _ & Hmid).
    apply In_firstn in Hfs.
    destruct (@grouped_bucket entries daily date fs Hg Hfs) as (-> & _ & _). exact Hmid.
Qed.

Lemma five_daily_buckets_witness :
  exists cards,
    daily_representatives Demo.forecast_payload = Ok cards
    /\ length cards = 5
    /\ NoDup (map fst cards)
    /\ forall date mid, In (date, mid) cards -> In mid (entries_of_day date Demo.six_days).
Proof.
  apply (@five_daily_buckets Demo.forecast_payload Demo.six_days
           (map (fun s => lit s)
                ["2024-01-01"; "2024-01-01"; "2024-01-02"; "2024-01-02"; "2024-01-02";
                 "2024-01-03"; "2024-01-04"; "2024-01-05"; "2024-01-06"]%string)).
  - reflexivity.
  - reflexivity.
  - vm_compute. lia.
Defined.

(** C2. In every bucket built by the grouping (each is non-empty) the
    representative is an entry of the bucket whose timestamp text contains
    12:00:00 when the bucket has such an entry, and otherwise the entry at
    index [len // 2] of the bucket. *)
Theorem representative_noon_or_median
    (data : json) (daily : list bucket) (date : pystr) (forecasts : list json) :
  group_by_day data = Ok daily ->
  In (date, forecasts) daily ->
  forecasts <> []
  /\ exists mid,
       representative forecasts = Ok mid
       /\ ((exists x, In x forecasts /\ noon_entry x) ->
           In mid forecasts /\ noon_entry mid)
       /\ (~ (exists x, In x forecasts /\ noon_entry x) ->
           nth_error forecasts (length forecasts / 2) = Some mid).
Proof.
  unfold group_by_day. intros Hg Hin.
  destruct (Py.getitem data (lit "list")) as [l|e]; simpl in Hg; [|discriminate].
  destruct (Py.iter l) as [entries|e]; simpl in Hg; [|discriminate].
  destruct (@grouped_bucket entries daily date forecasts Hg Hin) as (_ & Hne & Hdated).
  split; [assumption|].
  destruct (representative_spec Hne Hdated) as (mid & Hmid & Hmem & Hyes & Hno).
  exists mid. auto.
Qed.

Lemma representative_noon_or_median_witness :
  let forecasts := [ Demo.entry "2024-01-02 09:00:00" 5;
                     Demo.entry "2024-01-02 12:00:00" 6;
                     Demo.entry "2024-01-02 15:00:00" 7 ] in
  forecasts <> []
  /\ exists mid,
       representative forecasts = Ok mid
       /\ ((exists x, In x forecasts /\ noon_entry x) ->
           In mid forecasts /\ noon_entry mid)
       /\ (~ (exists x, In x forecasts /\ noon_entry x) ->
           nth_error forecasts (length forecasts / 2) = Some mid).
Proof.
  intros forecasts.
  eapply (@representative_noon_or_median Demo.forecast_payload _ (lit "2024-01-02") forecasts).
  - vm_compute. reflexivity.
  - simpl. right. left. reflexivity.
Defined.

(** ** The run monad *)

Module RunFacts.
Section Laws.
Variable World : Type.
Implicit Types w : World.

Lemma bind_Ok {A B} (m : M World A) (k : A -> M World B) w a :
  returned (m w) = Ok a ->
  bind m k w = mkOutcome (returned (k a (world (m w))))
                         (events (m w) ++ events (k a (world (m w))))
                         (world (k a (world (m w)))).
Proof. unfold bind. now intros ->. Qed.

Lemma bind_Raise {A B} (m : M World A) (k : A -> M World B) w e :
  returned (m w) = Raise e ->
  bind m k w = mkOutcome (Raise e) (events (m w)) (world (m w)).
Proof. unfold bind. now intros ->. Qed.

Lemma bind_returned_inv {A B} (m : M World A) (k : A -> M World B) w b :
  returned (bind m k w) = Ok b ->
  exists a, returned (m w) = Ok a /\ returned (k a (world (m w))) = Ok b.
Proof.
  unfold bind. destruct (returned (m w)) as [a|e]; simpl; [eauto | discriminate].
Qed.

Lemma try_except_returned_inv {A} c (body : M World A) handler w a :
  returned (try_except c body handler w) = Ok a ->
  returned (body w) = Ok a
  \/ exists e, returned (body w) = Raise e /\ c e = true
               /\ returned (handler e (world (body w))) = Ok a.
Proof.
  unfold try_except. destruct (returned (body w)) as [x|e] eqn:Hb.
  - rewrite Hb. auto.
  - destruct (c e) eqn:Hc; simpl; [eauto | rewrite Hb; discriminate].
Qed.

Lemma try_except_Ok {A} c (body : M World A) handler w a :
  returned (body w) = Ok a -> try_except c body handler w = body w.
Proof. unfold try_except. now intros ->. Qed.

Lemma try_except_total {A} c (body : M World A) handler w :
  (forall e, c e = true) ->
  (forall e w', exists a, returned (handler e w') = Ok a) ->
  exists a, returned (try_except c body handler w) = Ok a.
Proof.
  intros Hc Hh. unfold try_except.
  destruct (returned (body w)) as [a|e] eqn:Hb.
  - rewrite Hb. eauto.
  - rewrite Hc. cbn [returned]. apply Hh.
Qed.

(** *** Code that never emits events of some class *)

Variable P : event -> bool.

Lemma quiet_ret {A} (a : A) : quiet P (ret (World:=World) a).
Proof. intros w. reflexivity. Qed.

Lemma quiet_lift {A} (r : result A) : quiet P (lift (World:=World) r).
Proof. intros w. reflexivity. Qed.

Lemma quiet_ask {A} (f : World -> A) : quiet P (ask f).
Proof. intros w. reflexivity. Qed.

Lemma quiet_emit ev : P ev = false -> quiet P (emit (World:=World) ev).
Proof. intros H w. simpl. now rewrite H. Qed.

Lemma quiet_call {A} ev (f : World -> result A * World) :
  P ev = false -> quiet P (call ev f).
Proof. intros H w. simpl. now rewrite H. Qed.

Lemma quiet_bind {A B} (m : M World A) (k : A -> M World B) :
  quiet P m -> (forall a, quiet P (k a)) -> quiet P (bind m k).
Proof.
  intros Hm Hk w. unfold bind.
  destruct (returned (m w)) as [a|e]; simpl; [|apply Hm].
  rewrite existsb_app, Hm, Hk. reflexivity.
Qed.

Lemma quiet_try_except {A} c (body : M World A) handler :
  quiet P body -> (forall e, quiet P (handler e)) -> quiet P (try_except c body handler).
Proof.
  intros Hb Hh w. unfold try_except.
  destruct (returned (body w)) as [a|e]; [apply Hb|].
  destruct (c e); simpl; [|apply Hb].
  rewrite existsb_app, Hb, Hh. reflexivity.
Qed.

Lemma quiet_filter {A} (m : M World A) w : quiet P m -> filter P (events (m w)) = [].
Proof.
  intros H. specialize (H w). induction (events (m w)) as [|ev evs IH]; simpl in *; [reflexivity|].
  apply orb_false_iff in H. destruct H as [-> H]. auto.
Qed.

End Laws.
End RunFacts.
Import RunFacts.

#[local] Arguments lit : simpl never.
#[local] Arguments build_prompt : simpl never.
#[local] Arguments row_of_entry : simpl never.
#[local] Arguments group_by_day : simpl never.
#[local] Arguments representative : simpl never.
#[local] Arguments extract_snapshot : simpl never.
#[local] Arguments update_map : simpl never.
#[local] Arguments update_labels : simpl never.
#[local] Arguments update_icon : simpl never.
#[local] Arguments fetch_photo : simpl never.
#[local] Arguments display_forecast : simpl never.
#[local] Arguments display_forecast_table : simpl never.
#[local] Arguments analyze_weather_with_ai : simpl never.
#[local] Arguments get_weather : simpl never.
#[local] Arguments get_forecast : simpl never.
#[local] Arguments Py.get : simpl never.
#[local] Arguments Py.getitem : simpl never.

(** ** Hourly table *)

Module TableFacts.
Section Table.
Variable World : Type.
Variable E : Env World.

Lemma table_rows_run entries : forall rows w,
  map_result (row_of_entry E) entries = Ok rows ->
  table_rows E entries w = mkOutcome (Ok tt) (map TableInsert rows) w.
Proof.
  induction entries as [|f rest IH]; simpl; intros rows w H.
  - inversion H; subst. reflexivity.
  - destruct (row_of_entry E f) as [r|e] eqn:Hr; simpl in H; [|discriminate].
    destruct (map_result (row_of_entry E) rest) as [rs|e] eqn:Hrs; simpl in H; [|discriminate].
    inversion H; subst. unfold bind, lift, emit. simpl.
    rewrite (IH rs w eq_refl). reflexivity.
Qed.

Lemma table_after_inserts rows : forall before,
  table_after (map TableInsert rows) before = before ++ rows.
Proof.
  induction rows as [|r rs IH]; simpl; intros before.
  - now rewrite app_nil_r.
  - rewrite IH, <- app_assoc. reflexivity.
Qed.

Lemma map_result_length {A B} (f : A -> result B) l : forall rs,
  map_result f l = Ok rs -> length rs = length l.
Proof.
  induction l as [|a rest IH]; simpl; intros rs H.
  - now inversion H.
  - destruct (f a); simpl in H; [|discriminate].
    destruct (map_result f rest) as [bs|]; simpl in H; [|discriminate].
    inversion H; subst. simpl. f_equal. now apply IH.
Qed.

Lemma map_result_nth {A B} (f : A -> result B) l : forall rs i a,
  map_result f l = Ok rs -> nth_error l i = Some a ->
  exists r, f a = Ok r /\ nth_error rs i = Some r.
Proof.
  induction l as [|x rest IH]; simpl; intros rs i a H Hn.
  - destruct i; discriminate.
  - destruct (f x) as [b|] eqn:Hx; simpl in H; [|discriminate].
    destruct (map_result f rest) as [bs|]; simpl in H; [|discriminate].
    inversion H; subst. destruct i as [|i]; simpl in *.
    + inversion Hn; subst. eauto.
    + eapply IH; eauto.
Qed.

End Table.
End TableFacts.
Import TableFacts.

(** C7. The hourly table holds one row per entry of the first 24 entries
    of the fetched list, in list order: row [i] is the row built from
    entry [i], for every [i < min 24 (length entries)]. *)
Theorem hourly_table_is_truncation World (E : Env World)
    (data : json) (entries : list json) (rows before : list table_row) (w : World) :
  Py.getitem data (lit "list") = Ok (JArr entries) ->
  map_result (row_of_entry E) (firstn 24 entries) = Ok rows ->
  let o := display_forecast_table E data w in
  returned o = Ok tt
  /\ table_after (events o) before = rows
  /\ length rows = Nat.min 24 (length entries)
  /\ forall i, i < Nat.min 24 (length entries) ->
       exists f r, nth_error entries i = Some f
                   /\ row_of_entry E f = Ok r
                   /\ nth_error rows i = Some r.
Proof.
  intros Hlist Hrows o.
  assert (Ho : o = mkOutcome (Ok tt) (TableClear :: map TableInsert rows) w).
  { subst o. unfold display_forecast_table, bind, lift, emit.
    cbn [returned events world]. rewrite Hlist.
    cbn [returned events world Py.slice_to Py.iter].
    rewrite (table_rows_run E _ w Hrows). reflexivity. }
  rewrite Ho. cbn [returned events world]. split; [reflexivity|].
  split; [apply (table_after_inserts rows [])|].
  assert (Hlen : length rows = Nat.min 24 (length entries)).
  { rewrite (map_result_length _ _ Hrows). apply length_firstn. }
  split; [exact Hlen|].
  intros i Hi.
  destruct (nth_error entries i) as [f|] eqn:Hf.
  - assert (Hf' : nth_error (firstn 24 entries) i = Some f).
    { rewrite nth_error_firstn. destruct (Nat.ltb_spec i 24); [assumption | lia]. }
    destruct (map_result_nth _ _ _ Hrows Hf') as (r & Hr & Hn). eauto.
  - apply nth_error_None in Hf. lia.
Qed.

Lemma hourly_table_is_truncation_witness :
  let o := display_forecast_table Demo.env Demo.forecast_payload (Demo.mkWorld [] []) in
  returned o = Ok tt
  /\ table_after (events o) [] = map (fun f => match row_of_entry Demo.env f with
                                               | Ok r => r
                                               | Raise _ => mkRow [] [] [] [] []
                                               end) Demo.six_days
  /\ length (map (fun f => match row_of_entry Demo.env f with
                           | Ok r => r
                           | Raise _ => mkRow [] [] [] [] []
                           end) Demo.six_days) = Nat.min 24 (length Demo.six_days)
  /\ forall i, i < Nat.min 24 (length Demo.six_days) ->
       exists f r, nth_error Demo.six_days i = Some f
                   /\ row_of_entry Demo.env f = Ok r
                   /\ nth_error (map (fun f => match row_of_entry Demo.env f with
                                               | Ok r => r
                                               | Raise _ => mkRow [] [] [] [] []
                                               end) Demo.six_days) i = Some r.
Proof.
  apply (@hourly_table_is_truncation Demo.World Demo.env Demo.forecast_payload Demo.six_days).
  - reflexivity.
  - vm_compute. reflexivity.
Defined.

(** ** Advisory generator *)

Module AdvisoryFacts.
Section Advisory.
Variable World : Type.
Variable E : Env World.

Lemma try_models_fail m rest prompt last w e w1 :
  generate_content E m prompt w = (Raise e, w1) ->
  try_models E (m :: rest) prompt last w
  = let o := try_models E rest prompt (Some e) w1 in
    mkOutcome (returned o)
              (GenerateContent m prompt
                 :: Print (lit "Model " ++ m ++ lit " failed: " ++ detail e)
                 :: events o)
              (world o).
Proof.
  intros H. cbn [try_models]. unfold try_except, call, bind, emit.
  cbn [returned events world]. rewrite H. reflexivity.
Qed.

Lemma try_models_success m rest prompt last w text w1 :
  generate_content E m prompt w = (Ok text, w1) ->
  try_models E (m :: rest) prompt last w
  = mkOutcome (Ok text) [GenerateContent m prompt] w1.
Proof.
  intros H. cbn [try_models]. unfold try_except, call.
  cbn [returned events world]. rewrite H. reflexivity.
Qed.

Lemma try_models_returns models : forall prompt last w,
  exists text, returned (try_models E models prompt last w) = Ok text.
Proof.
  induction models as [|m rest IH]; intros prompt last w.
  - eexists. reflexivity.
  - destruct (generate_content E m prompt w) as [[text|e] w1] eqn:Hg.
    + rewrite (try_models_success _ rest _ last _ Hg). eexists. reflexivity.
    + rewrite (try_models_fail _ rest _ last _ Hg). apply IH.
Qed.

(** Once the prompt is built, the call is the fallback loop. *)
Lemma analyze_with_prompt weather_data forecast_data prompt w :
  build_prompt E weather_data forecast_data = Ok prompt ->
  analyze_weather_with_ai E weather_data forecast_data w
  = let o := try_models E models_to_try prompt None w in
    mkOutcome (returned o)
              (EnterAnalyze weather_data forecast_data :: events o)
              (world o).
Proof.
  intros Hprompt. unfold analyze_weather_with_ai, bind, emit, lift, try_except.
  cbn [returned events world]. rewrite Hprompt. cbn [returned events world app].
  destruct (try_models_returns models_to_try prompt None w) as [text Ht].
  rewrite Ht. reflexivity.
Qed.

(** When the prompt cannot be built, no model is asked. *)
Lemma analyze_without_prompt weather_data forecast_data e w :
  build_prompt E weather_data forecast_data = Raise e ->
  analyze_weather_with_ai E weather_data forecast_data w
  = mkOutcome (Ok (lit "AI Analysis unavailable: " ++ detail e))
              [EnterAnalyze weather_data forecast_data] w.
Proof.
  intros Hprompt. unfold analyze_weather_with_ai, bind, emit, lift, try_except, ret.
  cbn [returned events world]. rewrite Hprompt. reflexivity.
Qed.

(** Every call returns a text, and is visible in the trace. *)
Lemma analyze_outcome weather_data forecast_data w :
  exists text rest,
    returned (analyze_weather_with_ai E weather_data forecast_data w) = Ok text
    /\ events (analyze_weather_with_ai E weather_data forecast_data w)
       = EnterAnalyze weather_data forecast_data :: rest.
Proof.
  destruct (build_prompt E weather_data forecast_data) as [prompt|e] eqn:Hprompt.
  - rewrite (analyze_with_prompt _ _ w Hprompt). cbv zeta. cbn [returned events].
    destruct (try_models_returns models_to_try prompt None w) as [text Ht].
    eauto.
  - rewrite (analyze_without_prompt _ _ w Hprompt). cbn [returned events]. eauto.
Qed.

End Advisory.
End AdvisoryFacts.
Import AdvisoryFacts.

(** C10. Whatever the two arguments are, [analyze_weather_with_ai]
    returns a string and no exception leaves it: when building the prompt
    raises, the exception is turned into the "AI Analysis unavailable"
    text; otherwise the result is what the fallback loop returns, which is
    itself always a string. *)
Theorem analyze_never_raises World (E : Env World) (weather_data forecast_data : json) (w : World) :
  exists text,
    returned (analyze_weather_with_ai E weather_data forecast_data w) = Ok text
    /\ match build_prompt E weather_data forecast_data with
       | Raise e => text = lit "AI Analysis unavailable: " ++ detail e
       | Ok prompt => returned (try_models E models_to_try prompt None w) = Ok text
       end.
Proof.
  destruct (build_prompt E weather_data forecast_data) as [prompt|e] eqn:Hprompt.
  - rewrite (analyze_with_prompt E _ _ w Hprompt). cbv zeta. cbn [returned].
    destruct (try_models_returns E models_to_try prompt None w) as [text Ht].
    exists text. split; exact Ht.
  - rewrite (analyze_without_prompt E _ _ w Hprompt). cbn [returned].
    eexists. split; reflexivity.
Qed.

(** C3. When the first model of the fallback list fails and the second
    succeeds, the generator returns the text of the second model and the
    two requests to these models are the only ones made. *)
Theorem fallback_stops_at_second_model World (E : Env World)
    (weather_data forecast_data : json) (prompt first second : pystr)
    (later : list pystr) (w w1 w2 : World) (e1 : exn) (text : pystr) :
  models_to_try = first :: second :: later ->
  build_prompt E weather_data forecast_data = Ok prompt ->
  generate_content E first prompt w = (Raise e1, w1) ->
  generate_content E second prompt w1 = (Ok text, w2) ->
  let o := analyze_weather_with_ai E weather_data forecast_data w in
  returned o = Ok text
  /\ attempted (events o) = [first; second]
  /\ world o = w2.
Proof.
  intros Hmodels Hprompt H1 H2 o. subst o.
  rewrite (analyze_with_prompt E _ _ w Hprompt), Hmodels. cbv zeta.
  rewrite (try_models_fail E _ _ _ _ _ H1). cbv zeta.
  rewrite (try_models_success E _ _ _ _ _ H2).
  repeat split.
Qed.

Lemma fallback_stops_at_second_model_witness :
  let w := Demo.mkWorld [] [Raise (Demo.quota "lite"); Ok (lit "Carry an umbrella.")] in
  let o := analyze_weather_with_ai Demo.env Demo.weather_payload Demo.forecast_payload w in
  returned o = Ok (lit "Carry an umbrella.")
  /\ attempted (events o) = [lit "gemini-2.0-flash-lite"; lit "gemini-flash-latest"]
  /\ world o = Demo.mkWorld [] [].
Proof.
  intros w.
  eapply (@fallback_stops_at_second_model Demo.World Demo.env
            Demo.weather_payload Demo.forecast_payload _ _ _ _ w _ _ (Demo.quota "lite")).
  - reflexivity.
  - vm_compute. reflexivity.
  - reflexivity.
  - reflexivity.
Defined.

(** C4. When every model of the fallback list fails, the generator
    returns the fixed unavailability message followed by the failure detail
    of the last model tried; the failures of the earlier models do not
    appear in what it returns. *)
Theorem all_models_fail_last_detail World (E : Env World)
    (weather_data forecast_data : json) (prompt m1 m2 m3 m4 : pystr)
    (w w1 w2 w3 w4 : World) (e1 e2 e3 e4 : exn) :
  models_to_try = [m1; m2; m3; m4] ->
  build_prompt E weather_data forecast_data = Ok prompt ->
  generate_content E m1 prompt w = (Raise e1, w1) ->
  generate_content E m2 prompt w1 = (Raise e2, w2) ->
  generate_content E m3 prompt w2 = (Raise e3, w3) ->
  generate_content E m4 prompt w3 = (Raise e4, w4) ->
  let o := analyze_weather_with_ai E weather_data forecast_data w in
  returned o
  = Ok (lit "AI Analysis currently unavailable (Quota limit reached). Please try again later."
          ++ nl ++ lit "Details: " ++ detail e4)
  /\ attempted (events o) = models_to_try
  /\ world o = w4.
Proof.
  intros Hmodels Hprompt H1 H2 H3 H4 o. subst o.
  rewrite (analyze_with_prompt E _ _ w Hprompt), Hmodels. cbv zeta.
  rewrite (try_models_fail E _ _ _ _ _ H1). cbv zeta.
  rewrite (try_models_fail E _ _ _ _ _ H2). cbv zeta.
  rewrite (try_models_fail E _ _ _ _ _ H3). cbv zeta.
  rewrite (try_models_fail E _ _ _ _ _ H4).
  repeat split.
Qed.

Lemma all_models_fail_last_detail_witness :
  let w := Demo.mkWorld [] [Raise (Demo.quota "1"); Raise (Demo.quota "2");
                            Raise (Demo.quota "3"); Raise (Demo.quota "4")] in
  let o := analyze_weather_with_ai Demo.env Demo.weather_payload Demo.forecast_payload w in
  returned o
  = Ok (lit "AI Analysis currently unavailable (Quota limit reached). Please try again later."
          ++ nl ++ lit "Details: " ++ detail (Demo.quota "4"))
  /\ attempted (events o) = models_to_try
  /\ world o = Demo.mkWorld [] [].
Proof.
  intros w.
  eapply (@all_models_fail_last_detail Demo.World Demo.env
            Demo.weather_payload Demo.forecast_payload _ _ _ _ _ w _ _ _ _
            (Demo.quota "1") (Demo.quota "2") (Demo.quota "3") (Demo.quota "4")).
  - reflexivity.
  - vm_compute. reflexivity.
  - reflexivity.
  - reflexivity.
  - reflexivity.
  - reflexivity.
Defined.

(** ** Fetchers *)

Module FetchFacts.

Ltac quiet_step HP :=
  lazymatch goal with
  | |- quiet _ (bind _ _) => apply quiet_bind; [|intros ?]
  | |- quiet _ (try_except _ _ _) => apply quiet_try_except; [|intros ?]
  | |- quiet _ (ret _) => apply quiet_ret
  | |- quiet _ (lift _) => apply quiet_lift
  | |- quiet _ (ask _) => apply quiet_ask
  | |- quiet _ (emit _) => apply quiet_emit; first [reflexivity | apply HP; reflexivity]
  | |- quiet _ (call _ _) => apply quiet_call; first [reflexivity | apply HP; reflexivity]
  | |- quiet _ (if ?b then _ else _) => destruct b
  | |- quiet _ (match ?x with _ => _ end) => destruct x
  end.

Section Quiet.
Variable World : Type.
Variable E : Env World.
Variable P : event -> bool.
Hypothesis HP : forall ev, is_dialog ev = false -> is_enter_analyze ev = false -> P ev = false.

Lemma quiet_update_icon icon : quiet P (update_icon E icon).
Proof.
  unfold update_icon, fetch_photo. repeat quiet_step HP.
Qed.

Lemma quiet_update_map data name : quiet P (update_map E data name).
Proof. unfold update_map. repeat quiet_step HP. Qed.

Lemma quiet_update_labels s : quiet P (update_labels E s).
Proof. unfold update_labels. repeat quiet_step HP. Qed.

Lemma quiet_day_cards buckets : forall col, quiet P (day_cards E buckets col).
Proof.
  induction buckets as [|[date forecasts] rest IH]; intros col; cbn [day_cards].
  - apply quiet_ret.
  - unfold fetch_photo. repeat quiet_step HP. apply IH.
Qed.

Lemma quiet_display_forecast data : quiet P (display_forecast E data).
Proof.
  unfold display_forecast. repeat quiet_step HP. apply quiet_day_cards.
Qed.

Lemma quiet_table_rows entries : quiet P (table_rows E entries).
Proof.
  induction entries as [|f rest IH]; cbn [table_rows].
  - apply quiet_ret.
  - repeat quiet_step HP. apply IH.
Qed.

Lemma quiet_display_forecast_table data : quiet P (display_forecast_table E data).
Proof.
  unfold display_forecast_table. repeat quiet_step HP. apply quiet_table_rows.
Qed.
End Quiet.

Section Fetch.
Variable World : Type.
Variable E : Env World.

Lemma no_enter ev :
  is_dialog ev = false -> is_enter_analyze ev = false -> is_enter_analyze ev = false.
Proof. auto. Qed.

Lemma quiet_get_weather entry : quiet is_enter_analyze (get_weather E entry).
Proof.
  unfold get_weather. destruct (strip entry); repeat quiet_step no_enter.
  - apply quiet_update_map, no_enter.
  - apply quiet_update_labels, no_enter.
  - apply quiet_update_icon, no_enter.
Qed.

Lemma quiet_get_forecast entry : quiet is_enter_analyze (get_forecast E entry).
Proof.
  unfold get_forecast. destruct (strip entry); repeat quiet_step no_enter.
  - apply quiet_display_forecast, no_enter.
  - apply quiet_display_forecast_table, no_enter.
Qed.

(** A payload in which a key is bound is a non-empty dict. *)
Lemma getitem_truthy data k v : Py.getitem data k = Ok v -> Py.truthy data = true.
Proof.
  unfold Py.getitem. destruct data as [| | | | | |fields]; try discriminate.
  destruct fields; [discriminate | reflexivity].
Qed.

Lemma success_truthy data cod :
  Py.get data (lit "cod") JNull = Ok cod -> Py.eq_int cod 200 = true ->
  Py.truthy data = true.
Proof.
  unfold Py.get. destruct data as [| | | | | |fields]; try discriminate.
  destruct fields; [|reflexivity]. cbn. intros H. inversion H; subst. discriminate.
Qed.

Lemma get_weather_returns_success entry w data :
  returned (get_weather E entry w) = Ok (Some data) ->
  payload_success data = true.
Proof.
  unfold get_weather. destruct (strip entry) as [|c city]; [discriminate|].
  intros H. apply bind_returned_inv in H. destruct H as (fetched & _ & H).
  destruct fetched as [d|]; [|discriminate].
  apply bind_returned_inv in H. destruct H as (cod & Hcod & H).
  cbn [lift returned world] in Hcod, H.
  destruct (Py.eq_int cod 200) eqn:H200; cbn [negb] in H.
  - repeat (apply bind_returned_inv in H; destruct H as (? & _ & H)).
    cbn in H. inversion H; subst d.
    unfold payload_success. now rewrite Hcod.
  - repeat (apply bind_returned_inv in H; destruct H as (? & _ & H)).
    discriminate.
Qed.

Lemma get_weather_returns_truthy entry w data :
  returned (get_weather E entry w) = Ok (Some data) -> Py.truthy data = true.
Proof.
  intros H. apply get_weather_returns_success in H. unfold payload_success in H.
  destruct (Py.get data (lit "cod") JNull) as [cod|] eqn:Hcod; [|discriminate].
  eapply success_truthy; eassumption.
Qed.

Lemma get_forecast_returns_truthy entry w data :
  returned (get_forecast E entry w) = Ok (Some data) -> Py.truthy data = true.
Proof.
  unfold get_forecast. destruct (strip entry) as [|c city]; [discriminate|].
  intros H. apply try_except_returned_inv in H.
  destruct H as [H | (e & _ & _ & H)]; [|discriminate].
  apply bind_returned_inv in H. destruct H as (response & _ & H).
  apply bind_returned_inv in H. destruct H as (d & _ & H).
  destruct (status_code response =? 200)%Z.
  - apply bind_returned_inv in H. destruct H as ([] & Hdisp & H).
    apply bind_returned_inv in H. destruct H as ([] & _ & H).
    cbn in H. inversion H; subst d.
    unfold display_forecast in Hdisp.
    apply bind_returned_inv in Hdisp. destruct Hdisp as ([] & _ & Hdisp).
    apply bind_returned_inv in Hdisp. destruct Hdisp as (daily & Hg & _).
    cbn [lift returned] in Hg. unfold group_by_day in Hg.
    destruct (Py.getitem data (lit "list")) as [l|] eqn:Hl; [|discriminate].
    eapply getitem_truthy; eassumption.
  - repeat (apply bind_returned_inv in H; destruct H as (? & _ & H)).
    discriminate.
Qed.

End Fetch.

End FetchFacts.
Import FetchFacts.

(** C5. With an empty city name (nothing left of the entry text once
    stripped) the callback and both fetchers only show the "Input error"
    warning: no request is sent, nothing else happens and the fetchers
    return nothing. *)
Theorem empty_city_no_fetch World (E : Env World) (entry : pystr) (w : World) :
  strip entry = [] ->
  get_all_data E entry w = mkOutcome (Ok tt) [input_warning] w
  /\ get_weather E entry w = mkOutcome (Ok None) [input_warning] w
  /\ get_forecast E entry w = mkOutcome (Ok None) [input_warning] w
  /\ filter is_network (events (get_all_data E entry w)) = [].
Proof.
  intros Hempty. unfold get_all_data, get_weather, get_forecast.
  rewrite Hempty. repeat split.
Qed.

Lemma empty_city_no_fetch_witness :
  let w := Demo.mkWorld [Demo.http_ok 200 Demo.weather_payload] [] in
  get_all_data Demo.env (lit "  ") w = mkOutcome (Ok tt) [input_warning] w
  /\ get_weather Demo.env (lit "  ") w = mkOutcome (Ok None) [input_warning] w
  /\ get_forecast Demo.env (lit "  ") w = mkOutcome (Ok None) [input_warning] w
  /\ filter is_network (events (get_all_data Demo.env (lit "  ") w)) = [].
Proof.
  intros w. apply (@empty_city_no_fetch Demo.World Demo.env (lit "  ") w).
  reflexivity.
Defined.

(** C8. In every run of [get_all_data] the advisory generator is called
    exactly when the weather fetch and then the forecast fetch both
    returned their payload; when either returned nothing or raised, it is
    not called. *)
Theorem advisory_iff_both_fetches World (E : Env World) (entry : pystr) (w : World) :
  let weather_run := get_weather E entry w in
  let forecast_run := get_forecast E entry (world weather_run) in
  advisory_invoked (events (get_all_data E entry w)) = true
  <-> exists weather_data forecast_data,
        returned weather_run = Ok (Some weather_data)
        /\ returned forecast_run = Ok (Some forecast_data).
Proof.
  intros weather_run forecast_run.
  assert (Hqw : advisory_invoked (events weather_run) = false)
    by apply quiet_get_weather.
  assert (Hqf : advisory_invoked (events forecast_run) = false)
    by apply quiet_get_forecast.
  unfold get_all_data. destruct (strip entry) as [|c city] eqn:Hcity.
  - split; [discriminate|].
    intros (wd & fd & Hw & _). subst weather_run.
    unfold get_weather in Hw. rewrite Hcity in Hw. discriminate.
  - destruct (returned weather_run) as [wr|e] eqn:Hw.
    + rewrite (bind_Ok _ _ _ Hw). cbn [events]. fold weather_run.
      destruct (returned forecast_run) as [fr|e] eqn:Hf.
      * rewrite (bind_Ok _ _ _ Hf). cbn [events]. fold forecast_run.
        unfold advisory_invoked in *. rewrite !existsb_app, Hqw, Hqf. cbn [orb].
        destruct wr as [wd|];
          [|split; [discriminate | intros (? & ? & ? & ?); discriminate]].
        destruct fr as [fd|];
          [|cbn [returned_value Py.truthy]; rewrite andb_false_r;
            split; [discriminate | intros (? & ? & ? & ?); discriminate]].
        cbn [returned_value].
        rewrite (get_weather_returns_truthy _ _ _ Hw).
        rewrite (get_forecast_returns_truthy _ _ _ Hf). cbn [andb].
        split; [eauto | intros _].
        match goal with
        | |- context [bind (analyze_weather_with_ai E wd fd) _ ?w'] =>
            destruct (analyze_outcome E wd fd w') as (text & rest & Ht & Hev)
        end.
        rewrite (bind_Ok _ _ _ Ht). cbn [events]. rewrite Hev. reflexivity.
      * rewrite (bind_Raise _ _ _ Hf). cbn [events]. fold forecast_run.
        unfold advisory_invoked in *. rewrite existsb_app, Hqw, Hqf.
        split; [discriminate | intros (? & ? & ? & ?); discriminate].
    + rewrite (bind_Raise _ _ _ Hw). cbn [events]. fold weather_run. rewrite Hqw.
      split; [discriminate | intros (? & ? & ? & ?); discriminate].
Qed.

Module WeatherFacts.
Section Icon.
Variable World : Type.
Variable E : Env World.

Lemma only_dialogs ev :
  is_dialog ev = false -> is_enter_analyze ev = false -> is_dialog ev = false.
Proof. auto. Qed.

Lemma update_icon_returns icon w : returned (update_icon E icon w) = Ok tt.
Proof.
  unfold update_icon. destruct (Py.truthy icon); [|reflexivity].
  unfold try_except.
  match goal with
  | |- context [returned (?body w)] =>
      destruct (returned (body w)) as [[]|e] eqn:Hb
  end.
  - exact Hb.
  - reflexivity.
Qed.

Lemma update_icon_no_dialog icon w : dialogs (events (update_icon E icon w)) = [].
Proof. apply quiet_filter, quiet_update_icon, only_dialogs. Qed.

(** A request that is answered, and whose answer decodes, hands the
    payload to the rest of the [try] body. *)
Lemma answered_request {A} req (k : response -> json -> M World A) w resp w1 data :
  requests_get E req w = (Ok resp, w1) ->
  json_body resp = Ok data ->
  (response <- call (HttpGet req) (requests_get E req) ;;
   data <- lift (json_body response) ;;
   k response data)%run w
  = let o := k resp data w1 in
    mkOutcome (returned o) (HttpGet req :: events o) (world o).
Proof.
  intros Hreq Hjson. unfold bind, call, lift.
  cbn [returned events world]. rewrite Hreq.
  cbn [fst snd returned events world]. rewrite Hjson.
  cbn [returned events world app]. reflexivity.
Qed.

(** A weather fetch that is answered with a success payload, and whose
    dashboard updates complete, returns the payload. *)
Lemma get_weather_reaches_icon entry w resp w1 data s :
  strip entry <> [] ->
  requests_get E (weather_request E (strip entry)) w = (Ok resp, w1) ->
  json_body resp = Ok data ->
  payload_success data = true ->
  extract_snapshot data (strip entry) = Ok s ->
  returned (update_map E data (city_name s) w1) = Ok tt ->
  returned (update_labels E s (world (update_map E data (city_name s) w1))) = Ok tt ->
  returned (get_weather E entry w) = Ok (Some data).
Proof.
  intros Hcity Hreq Hjson Hsuccess Hsnap Hmap Hlabels.
  unfold get_weather. destruct (strip entry) as [|c city]; [congruence|]. clear Hcity.
  match goal with
  | |- context [try_except ?c ?b ?h] => set (fetch := try_except c b h)
  end.
  assert (Hfetch : fetch w = mkOutcome (Ok (Some data))
                                       [HttpGet (weather_request E (c :: city))] w1).
  { subst fetch. unfold try_except.
    rewrite (@answered_request _ _ (fun _ d => ret (Some d)) w resp w1 data Hreq Hjson).
    reflexivity. }
  unfold payload_success in Hsuccess.
  destruct (Py.get data (lit "cod") JNull) as [cod|] eqn:Hcod; [|discriminate].
  unfold bind at 1. rewrite Hfetch. cbn [returned events world].
  unfold bind at 1, lift at 1. cbn [returned events world]. rewrite Hcod, Hsuccess.
  cbn [negb returned events world].
  unfold bind at 1, lift at 1. cbn [returned events world]. rewrite Hsnap.
  cbn [returned events world].
  rewrite (bind_Ok _ _ _ Hmap). cbn [returned events world].
  rewrite (bind_Ok _ _ _ Hlabels). cbn [returned events world].
  rewrite (bind_Ok _ _ _ (update_icon_returns _ _)). reflexivity.
Qed.

Lemma dialogs_app evs1 evs2 : dialogs (evs1 ++ evs2) = dialogs evs1 ++ dialogs evs2.
Proof. apply filter_app. Qed.

Lemma same_refl {A} (o : outcome World A) : same_result_and_dialogs o o.
Proof. split; reflexivity. Qed.

Lemma same_bind {A B} (m m' : M World A) (k k' : A -> M World B) w :
  m w = m' w ->
  (forall a, same_result_and_dialogs (k a (world (m w))) (k' a (world (m w)))) ->
  same_result_and_dialogs (bind m k w) (bind m' k' w).
Proof.
  intros Hm Hk. unfold bind. rewrite <- Hm.
  destruct (returned (m w)) as [a|e]; [|apply same_refl].
  destruct (Hk a) as [Hr Hd]. split; cbn [returned events].
  - exact Hr.
  - rewrite !dialogs_app. now f_equal.
Qed.

End Icon.
End WeatherFacts.
Import WeatherFacts.

(** C9. The icon block of [get_weather] never raises and never opens a
    dialog, whatever happens to the icon request or to the decoding; what
    [get_weather] returns, and the dialogs it shows, stay the same when the
    network and the image decoder are replaced by others that answer the
    weather request alike; and a weather fetch answered with a success
    payload whose dashboard updates complete returns that payload. *)
Theorem icon_failure_is_skipped World (E : Env World)
    (rg : request -> World -> result response * World)
    (dp : list N -> nat -> result photo) (entry : pystr) (w : World) :
  rg (weather_request E (strip entry)) w
  = requests_get E (weather_request E (strip entry)) w ->
  (forall icon w', returned (update_icon E icon w') = Ok tt
                   /\ dialogs (events (update_icon E icon w')) = [])
  /\ same_result_and_dialogs (get_weather (with_network E rg dp) entry w)
                             (get_weather E entry w)
  /\ (forall resp w1 data s,
        strip entry <> [] ->
        requests_get E (weather_request E (strip entry)) w = (Ok resp, w1) ->
        json_body resp = Ok data ->
        payload_success data = true ->
        extract_snapshot data (strip entry) = Ok s ->
        returned (update_map E data (city_name s) w1) = Ok tt ->
        returned (update_labels E s (world (update_map E data (city_name s) w1))) = Ok tt ->
        returned (get_weather E entry w) = Ok (Some data)
        /\ returned (get_weather (with_network E rg dp) entry w) = Ok (Some data)).
Proof.
  intros Hsame.
  assert (Hindep : same_result_and_dialogs (get_weather (with_network E rg dp) entry w)
                                           (get_weather E entry w)).
  { unfold get_weather. destruct (strip entry) as [|c city]; [apply same_refl|].
    apply same_bind.
    { unfold try_except, bind, call. cbn [returned events world requests_get with_network].
      change (weather_request (with_network E rg dp) (c :: city))
        with (weather_request E (c :: city)).
      rewrite Hsame. reflexivity. }
    intros [data|]; [|apply same_refl].
    apply same_bind; [reflexivity|]. intros cod.
    destruct (negb (Py.eq_int cod 200)); [apply same_refl|].
    apply same_bind; [reflexivity|]. intros s.
    apply same_bind; [reflexivity|]. intros [].
    apply same_bind; [reflexivity|]. intros [].
    split.
    - rewrite (bind_Ok _ _ _ (update_icon_returns _ _ _)).
      rewrite (bind_Ok _ _ _ (update_icon_returns _ _ _)). reflexivity.
    - rewrite (bind_Ok _ _ _ (update_icon_returns _ _ _)).
      rewrite (bind_Ok _ _ _ (update_icon_returns _ _ _)). cbn [events ret].
      rewrite !app_nil_r, !update_icon_no_dialog. reflexivity. }
  split; [|split; [exact Hindep|]].
  - intros icon w'. split; [apply update_icon_returns | apply update_icon_no_dialog].
  - intros resp w1 data s Hcity Hreq Hjson Hsuccess Hsnap Hmap Hlabels.
    assert (Hret : returned (get_weather E entry w) = Ok (Some data))
      by (eapply get_weather_reaches_icon; eassumption).
    split; [exact Hret|]. destruct Hindep as [Hr _]. now rewrite Hr.
Qed.

Lemma icon_failure_is_skipped_witness :
  let w := Demo.mkWorld [Demo.http_ok 200 Demo.weather_payload; Demo.icon_ok] [] in
  same_result_and_dialogs
    (get_weather (with_network Demo.env Demo.icons_down Demo.no_decode) (lit "Bangalore") w)
    (get_weather Demo.env (lit "Bangalore") w)
  /\ returned (get_weather Demo.env (lit "Bangalore") w) = Ok (Some Demo.weather_payload)
  /\ returned (get_weather (with_network Demo.env Demo.icons_down Demo.no_decode)
                           (lit "Bangalore") w)
     = Ok (Some Demo.weather_payload).
Proof.
  intros w.
  destruct (@icon_failure_is_skipped Demo.World Demo.env Demo.icons_down Demo.no_decode
              (lit "Bangalore") w eq_refl) as (_ & Hsame & Hpayload).
  split; [exact Hsame|].
  eapply (Hpayload (mkResponse 200 (Ok Demo.weather_payload) [])
                   (Demo.mkWorld [Demo.icon_ok] []) Demo.weather_payload).
  - vm_compute. discriminate.
  - reflexivity.
  - reflexivity.
  - reflexivity.
  - vm_compute. reflexivity.
  - reflexivity.
  - reflexivity.
Defined.

(** ** Forecast fetcher *)

Module ForecastFacts.
Section Forecast.
Variable World : Type.
Variable E : Env World.

Lemma get_object_message fields default :
  Py.get (JObj fields) (lit "message") default
  = Ok (match Py.lookup (lit "message") fields with
        | Some m => m
        | None => default
        end).
Proof. unfold Py.get. destruct (Py.lookup (lit "message") fields); reflexivity. Qed.

Lemma display_forecast_no_dialog data w :
  dialogs (events (display_forecast E data w)) = [].
Proof. apply quiet_filter, quiet_display_forecast, only_dialogs. Qed.

Lemma display_forecast_table_no_dialog data w :
  dialogs (events (display_forecast_table E data w)) = [].
Proof. apply quiet_filter, quiet_display_forecast_table, only_dialogs. Qed.

End Forecast.
End ForecastFacts.
Import ForecastFacts.

(** C6 (as the code has it). The forecast fetcher decides on the HTTP
    status of the response, not on the status field of the payload.  With
    a decoded payload in hand: when the HTTP status is not 200 and the
    payload is an object, it shows an "API error" dialog carrying the
    payload's message (a fixed text when there is none) and returns
    nothing; when the HTTP status is 200 and the two forecast displays
    complete, it returns the payload and shows no dialog; and it returns
    data only when the HTTP status is 200. *)
Theorem forecast_contract_http_status World (E : Env World)
    (entry : pystr) (w w1 : World) (resp : response) (data : json) :
  strip entry <> [] ->
  requests_get E (forecast_request E (strip entry)) w = (Ok resp, w1) ->
  json_body resp = Ok data ->
  let o := get_forecast E entry w in
  (status_code resp <> 200%Z ->
     forall fields, data = JObj fields ->
       o = mkOutcome (Ok None)
                     [ HttpGet (forecast_request E (strip entry));
                       ShowError (lit "API error") (forecast_error_message fields) ]
                     w1)
  /\ (status_code resp = 200%Z ->
      returned (display_forecast E data w1) = Ok tt ->
      returned (display_forecast_table E data (world (display_forecast E data w1))) = Ok tt ->
      returned o = Ok (Some data) /\ dialogs (events o) = [])
  /\ (forall d, returned o = Ok (Some d) -> status_code resp = 200%Z /\ d = data).
Proof.
  intros Hcity Hreq Hjson o. subst o. unfold get_forecast.
  destruct (strip entry) as [|c city]; [congruence|]. clear Hcity.
  match goal with
  | |- context [try_except _ ?b _ w] => set (body := b)
  end.
  assert (Hbody : body w = _)
    by exact (@answered_request World E _ _ _ w resp w1 data Hreq Hjson).
  cbv beta zeta in Hbody.
  destruct (status_code resp =? 200)%Z eqn:Hstatus.
  - try rewrite Hstatus in Hbody. cbv beta iota in Hbody.
    apply Z.eqb_eq in Hstatus. split; [congruence|]. split.
    + intros _ Hd Ht.
      rewrite (bind_Ok _ _ _ Hd) in Hbody. cbn [returned events world] in Hbody.
      rewrite (bind_Ok _ _ _ Ht) in Hbody. cbn [returned events world ret] in Hbody.
      rewrite (@try_except_Ok _ _ _ body _ w (Some data)) by (now rewrite Hbody).
      rewrite Hbody. cbn [returned events]. split; [reflexivity|].
      change (dialogs (HttpGet (forecast_request E (c :: city))
                         :: events (display_forecast E data w1)
                         ++ events (display_forecast_table E data
                                      (world (display_forecast E data w1))) ++ []))
        with (dialogs (events (display_forecast E data w1)
                         ++ events (display_forecast_table E data
                                      (world (display_forecast E data w1))) ++ [])).
      rewrite !dialogs_app, display_forecast_no_dialog, display_forecast_table_no_dialog.
      reflexivity.
    + intros d Hret. split; [assumption|].
      apply try_except_returned_inv in Hret.
      destruct Hret as [Hret | (e & _ & _ & Hret)]; [|discriminate].
      rewrite Hbody in Hret. cbn [returned] in Hret.
      apply bind_returned_inv in Hret. destruct Hret as ([] & _ & Hret).
      apply bind_returned_inv in Hret. destruct Hret as ([] & _ & Hret).
      cbn in Hret. congruence.
  - try rewrite Hstatus in Hbody. cbv beta iota in Hbody.
    apply Z.eqb_neq in Hstatus. split; [|split; [congruence|]].
    + intros _ fields ->.
      unfold bind, lift, emit, ret in Hbody.
      cbn [returned events world] in Hbody. rewrite get_object_message in Hbody.
      cbn [returned events world app] in Hbody.
      rewrite (@try_except_Ok _ _ _ body _ w None) by (now rewrite Hbody).
      exact Hbody.
    + intros d Hret. exfalso.
      apply try_except_returned_inv in Hret.
      destruct Hret as [Hret | (e & _ & _ & Hret)]; [|discriminate].
      rewrite Hbody in Hret. cbn [returned] in Hret.
      apply bind_returned_inv in Hret. destruct Hret as (m & _ & Hret).
      cbn in Hret. congruence.
Qed.

Lemma forecast_contract_http_status_witness :
  let w := Demo.mkWorld [Demo.http_ok 404 Demo.not_found_payload] [] in
  let w1 := Demo.mkWorld [] [] in
  let resp := mkResponse 404 (Ok Demo.not_found_payload) [] in
  let data := Demo.not_found_payload in
  let o := get_forecast Demo.env (lit "Paris") w in
  (status_code resp <> 200%Z ->
     forall fields, data = JObj fields ->
       o = mkOutcome (Ok None)
                     [ HttpGet (forecast_request Demo.env (strip (lit "Paris")));
                       ShowError (lit "API error") (forecast_error_message fields) ]
                     w1)
  /\ (status_code resp = 200%Z ->
      returned (display_forecast Demo.env data w1) = Ok tt ->
      returned (display_forecast_table Demo.env data
                  (world (display_forecast Demo.env data w1))) = Ok tt ->
      returned o = Ok (Some data) /\ dialogs (events o) = [])
  /\ (forall d, returned o = Ok (Some d) -> status_code resp = 200%Z /\ d = data).
Proof.
  intros w w1 resp data.
  apply (@forecast_contract_http_status Demo.World Demo.env (lit "Paris") w w1 resp data).
  - vm_compute. discriminate.
  - reflexivity.
  - reflexivity.
Defined.

(** C6 as stated fails: on an answer with HTTP status 200 whose payload
    carries the status "404", [get_forecast] shows no error and returns the
    payload, where the contract of [get_weather] asks for an "API error"
    and no data. *)
Lemma forecast_ignores_payload_status :
  ~ forecast_follows_payload_status Demo.env.
Proof.
  intros Hclaim.
  destruct (Hclaim (lit "Paris")
                   (Demo.mkWorld [Demo.http_ok 200 Demo.not_found_payload] [])
                   (mkResponse 200 (Ok Demo.not_found_payload) [])
                   (Demo.mkWorld [] [])
                   Demo.not_found_payload) as [Hfail _].
  - vm_compute. discriminate.
  - reflexivity.
  - reflexivity.
  - destruct Hfail as [Hret _]; [reflexivity|].
    vm_compute in Hret. discriminate.
Qed.

(** The forecast endpoint reports success as the text "200", which the
    status test of [get_weather] does not accept; [get_forecast] returns
    such a payload all the same. *)
Example forecast_success_payload_is_text :
  let w := Demo.mkWorld [Demo.http_ok 200 Demo.forecast_payload] [] in
  payload_success Demo.forecast_payload = false
  /\ returned (get_forecast Demo.env (lit "Bangalore") w) = Ok (Some Demo.forecast_payload)
  /\ dialogs (events (get_forecast Demo.env (lit "Bangalore") w)) = [].
Proof. vm_compute. repeat split. Qed.

(** * Further properties of the code *)

(** ** Grouping by day *)

Module GroupingFacts.

Lemma setdefault_append_perm d f daily :
  Permutation (concat (map snd (setdefault_append d f daily)))
              (concat (map snd daily) ++ [f]).
Proof.
  induction daily as [|[k fs] rest IH]; cbn [setdefault_append map snd concat].
  - reflexivity.
  - destruct (PyStr.eqb k d); cbn [map snd concat].
    + rewrite <- !app_assoc. apply Permutation_app_head, Permutation_app_comm.
    + rewrite <- app_assoc. now apply Permutation_app_head.
Qed.

Lemma group_loop_perm entries : forall acc daily,
  group_loop entries acc = Ok daily ->
  Permutation (concat (map snd daily)) (concat (map snd acc) ++ entries).
Proof.
  induction entries as [|f rest IH]; cbn [group_loop]; intros acc daily Hg.
  - inversion Hg; subst. now rewrite app_nil_r.
  - destruct (entry_date f) as [d|e]; cbn [rbind] in Hg; [|discriminate].
    rewrite (IH _ _ Hg), (setdefault_append_perm d f acc), <- app_assoc.
    reflexivity.
Qed.

Lemma setdefault_append_key_list d f daily :
  map fst (setdefault_append d f daily)
  = if existsb (PyStr.eqb d) (map fst daily) then map fst daily
    else map fst daily ++ [d].
Proof.
  induction daily as [|[k fs] rest IH]; cbn [setdefault_append map fst existsb].
  - reflexivity.
  - rewrite (eqb_sym d k). destruct (PyStr.eqb k d); cbn [map fst orb].
    + reflexivity.
    + rewrite IH. destruct (existsb (PyStr.eqb d) (map fst rest)); reflexivity.
Qed.

Lemma group_loop_key_order entries : forall dates acc daily,
  entry_dates entries = Ok dates ->
  group_loop entries acc = Ok daily ->
  map fst daily = map fst acc ++ first_seen_from (map fst acc) dates.
Proof.
  induction entries as [|f rest IH]; cbn [entry_dates group_loop]; intros dates acc daily Hd Hg.
  - inversion Hd; inversion Hg; subst. cbn. now rewrite app_nil_r.
  - destruct (entry_date f) as [d|e]; cbn [rbind] in Hd, Hg; [|discriminate].
    destruct (entry_dates rest) as [ds|e] eqn:Hds; cbn [rbind] in Hd; [|discriminate].
    inversion Hd; subst dates.
    rewrite (IH ds _ _ eq_refl Hg), setdefault_append_key_list.
    cbn [first_seen_from].
    destruct (existsb (PyStr.eqb d) (map fst acc)); [reflexivity|].
    now rewrite <- app_assoc.
Qed.

Lemma group_loop_raises entries : forall acc x ex,
  In x entries -> entry_date x = Raise ex ->
  exists e, group_loop entries acc = Raise e.
Proof.
  induction entries as [|f rest IH]; cbn [group_loop]; intros acc x ex Hin Hx.
  - destruct Hin.
  - destruct (entry_date f) as [d|e] eqn:Hf; cbn [rbind]; [|eauto].
    destruct Hin as [-> | Hin]; [congruence|]. eapply IH; eassumption.
Qed.

Lemma first_noon_split forecasts : forall default mid,
  Forall dated forecasts ->
  first_noon forecasts default = Ok mid ->
  (exists x, In x forecasts /\ noon_entry x) ->
  exists pre post,
    forecasts = pre ++ mid :: post
    /\ noon_entry mid
    /\ Forall (fun x => ~ noon_entry x) pre.
Proof.
  induction forecasts as [|x rest IH]; intros default mid Hall Hmid Hex.
  - destruct Hex as (x & [] & _).
  - inversion Hall as [|? ? [d Hd] Hrest]; subst.
    destruct (entry_date_is_noon _ Hd) as (t & Ht & Hn).
    cbn [first_noon] in Hmid. rewrite Hn in Hmid. cbn [rbind] in Hmid.
    destruct (PyStr.contains (lit "12:00:00") t) eqn:Hc.
    + inversion Hmid; subst mid. exists [], rest.
      split; [reflexivity|]. split; [exists t; auto | constructor].
    + assert (Hx : ~ noon_entry x).
      { intros (t' & Ht' & Hc'). rewrite Ht in Ht'. inversion Ht'; subst. congruence. }
      destruct (IH default mid Hrest Hmid) as (pre & post & Heq & Hnoon & Hpre).
      { destruct Hex as (y & [<- | Hy] & Hny); [contradiction | eauto]. }
      exists (x :: pre), post. subst rest.
      split; [reflexivity|]. split; [assumption | now constructor].
Qed.

End GroupingFacts.
Import GroupingFacts.

(** X1. Grouping loses no entry and repeats none: the buckets, laid end to
    end, hold exactly the entries of the list (as a permutation). *)
Theorem grouping_is_partition (data : json) (entries : list json) (daily : list bucket) :
  Py.getitem data (lit "list") = Ok (JArr entries) ->
  group_by_day data = Ok daily ->
  Permutation (concat (map snd daily)) entries.
Proof.
  unfold group_by_day. intros Hlist Hg. rewrite Hlist in Hg.
  cbn [rbind Py.iter] in Hg. exact (group_loop_perm _ _ Hg).
Qed.

Lemma grouping_is_partition_witness :
  Permutation (concat (map snd (ok_or [] (group_by_day Demo.forecast_payload))))
              Demo.six_days.
Proof.
  apply (@grouping_is_partition Demo.forecast_payload Demo.six_days).
  - reflexivity.
  - vm_compute. reflexivity.
Defined.

(** X2. The buckets come in the order in which their dates first appear in
    the list, and each bucket holds the entries of its date in list order;
    so the day cards follow the order of the fetched list. *)
Theorem buckets_in_order_of_first_appearance
    (data : json) (entries : list json) (dates : list pystr) (daily : list bucket) :
  Py.getitem data (lit "list") = Ok (JArr entries) ->
  entry_dates entries = Ok dates ->
  group_by_day data = Ok daily ->
  map fst daily = first_seen dates
  /\ forall date forecasts, In (date, forecasts) daily ->
       forecasts = entries_of_day date entries.
Proof.
  unfold group_by_day. intros Hlist Hdates Hg. rewrite Hlist in Hg.
  cbn [rbind Py.iter] in Hg. split.
  - exact (group_loop_key_order _ _ Hdates Hg).
  - intros date forecasts Hin.
    now destruct (@grouped_bucket entries daily date forecasts Hg Hin).
Qed.

Lemma buckets_in_order_of_first_appearance_witness :
  let daily := ok_or [] (group_by_day Demo.forecast_payload) in
  map fst daily = first_seen (ok_or [] (entry_dates Demo.six_days))
  /\ forall date forecasts, In (date, forecasts) daily ->
       forecasts = entries_of_day date Demo.six_days.
Proof.
  apply (@buckets_in_order_of_first_appearance Demo.forecast_payload Demo.six_days).
  - reflexivity.
  - vm_compute. reflexivity.
  - vm_compute. reflexivity.
Defined.

(** X3. When a bucket has an entry whose timestamp contains 12:00:00, the
    representative is the first such entry of the bucket: no entry before
    it contains that time. *)
Theorem representative_is_first_noon
    (data : json) (daily : list bucket) (date : pystr) (forecasts : list json) :
  group_by_day data = Ok daily ->
  In (date, forecasts) daily ->
  (exists x, In x forecasts /\ noon_entry x) ->
  exists pre mid post,
    forecasts = pre ++ mid :: post
    /\ representative forecasts = Ok mid
    /\ noon_entry mid
    /\ Forall (fun x => ~ noon_entry x) pre.
Proof.
  unfold group_by_day. intros Hg Hin Hex.
  destruct (Py.getitem data (lit "list")) as [l|e]; cbn [rbind] in Hg; [|discriminate].
  destruct (Py.iter l) as [entries|e]; cbn [rbind] in Hg; [|discriminate].
  destruct (@grouped_bucket entries daily date forecasts Hg Hin) as (_ & Hne & Hdated).
  destruct (representative_spec Hne Hdated) as (mid & Hmid & _).
  pose proof Hmid as Hrep. unfold representative in Hmid.
  destruct (Py.index (JArr forecasts) (length forecasts / 2)) as [default|e];
    cbn [rbind] in Hmid; [|discriminate].
  destruct (first_noon_split _ Hdated Hmid Hex) as (pre & post & Heq & Hnoon & Hpre).
  exists pre, mid, post. auto.
Qed.

Lemma representative_is_first_noon_witness :
  let forecasts := [ Demo.entry "2024-01-02 09:00:00" 5;
                     Demo.entry "2024-01-02 12:00:00" 6;
                     Demo.entry "2024-01-02 15:00:00" 7 ] in
  exists pre mid post,
    forecasts = pre ++ mid :: post
    /\ representative forecasts = Ok mid
    /\ noon_entry mid
    /\ Forall (fun x => ~ noon_entry x) pre.
Proof.
  intros forecasts.
  apply (@representative_is_first_noon Demo.forecast_payload
           (ok_or [] (group_by_day Demo.forecast_payload)) (lit "2024-01-02") forecasts).
  - vm_compute. reflexivity.
  - vm_compute. right. left. reflexivity.
  - exists (Demo.entry "2024-01-02 12:00:00" 6). split.
    + right. left. reflexivity.
    + eexists. split; vm_compute; reflexivity.
Defined.

(** ** Day cards *)

Module CardFacts.
Section Cards.
Variable World : Type.
Variable E : Env World.

Lemma bind_lift {A B} (r : result A) (k : A -> M World B) w :
  bind (lift r) k w
  = match r with
    | Ok a => k a w
    | Raise e => mkOutcome (Raise e) [] w
    end.
Proof.
  unfold bind, lift. destruct r as [a|e]; cbn [returned events world app].
  - destruct (k a w). reflexivity.
  - reflexivity.
Qed.

Lemma bind_emit {B} ev (k : unit -> M World B) w :
  bind (emit ev) k w
  = mkOutcome (returned (k tt w)) (ev :: events (k tt w)) (world (k tt w)).
Proof. reflexivity. Qed.

Lemma bind_run {A B} (m : M World A) (k : A -> M World B) w a evs w' :
  m w = mkOutcome (Ok a) evs w' ->
  bind m k w
  = mkOutcome (returned (k a w')) (evs ++ events (k a w')) (world (k a w')).
Proof. unfold bind. now intros ->. Qed.

(** The icon slot of a card: one request, then the image or the
    placeholder; never an exception. *)
Lemma card_icon_run icon w :
  exists ic w',
    try_except any_exception
      (p <- fetch_photo E icon (lit "@2x") 50 ;; emit (DayIcon p))%run
      (fun _ => emit DayIconFallback) w
    = mkOutcome (Ok tt)
                [HttpGet (mkRequest (icon_url E icon (lit "@2x")) [] None); ic] w'
    /\ ((exists p, ic = DayIcon p) \/ ic = DayIconFallback).
Proof.
  unfold try_except, fetch_photo, bind, call, lift, emit.
  cbn [returned events world].
  destruct (requests_get E (mkRequest (icon_url E icon (lit "@2x")) [] None) w)
    as [[resp|e] w1]; cbn [fst snd returned events world any_exception app].
  - destruct (decode_photo E (content resp) 50) as [p|e];
      cbn [returned events world any_exception app];
      do 2 eexists; (split; [reflexivity | eauto]).
  - do 2 eexists. split; [reflexivity | eauto].
Qed.

Lemma cards_drawn_none col limit e evs (w : World) :
  frame_columns evs = [] -> filter is_day_icon evs = [] ->
  cards_drawn col limit (mkOutcome (Raise e) evs w).
Proof.
  intros Hf Hi. exists 0. cbn [returned events]. rewrite Hf, Hi.
  repeat split; [lia | discriminate].
Qed.

Lemma day_cards_frames buckets : forall col w,
  cards_drawn col (length buckets) (day_cards E buckets col w).
Proof.
  induction buckets as [|[date forecasts] rest IH]; intros col w.
  - exists 0. cbn. auto.
  - cbn [day_cards length].
    rewrite bind_lift. destruct (representative forecasts) as [mid|e];
      [|now apply cards_drawn_none].
    rewrite bind_lift.
    match goal with
    | |- context [match ?r with Ok _ => _ | Raise _ => _ end] => destruct r as [temp|e]
    end; [|now apply cards_drawn_none].
    rewrite bind_lift.
    match goal with
    | |- context [match ?r with Ok _ => _ | Raise _ => _ end] => destruct r as [icon|e]
    end; [|now apply cards_drawn_none].
    rewrite bind_lift. destruct (weekday_name E date) as [day_name|e];
      [|now apply cards_drawn_none].
    rewrite !bind_emit. cbn [returned events world].
    destruct (card_icon_run icon w) as (ic & w' & Hrun & Hic).
    rewrite (@bind_run _ _ _ _ w tt _ w' Hrun). cbn [returned events world app].
    clear Hrun.
    rewrite bind_lift. destruct (int_text E temp) as [t|e].
    + rewrite bind_emit. cbn [returned events world].
      destruct (IH (S col) w') as (n & Hn & Hcols & Hicons & Hret).
      exists (S n). split; [lia|]. cbn [returned events world].
      destruct Hic as [[p ->] | ->]; unfold frame_columns in *;
        cbn [flat_map app filter is_day_icon length seq];
        rewrite Hcols, Hicons; repeat split; auto.
    + exists 1. split; [lia|].
      destruct Hic as [[p ->] | ->]; cbn; repeat split; discriminate.
Qed.

Lemma display_forecast_frames data w :
  cards_drawn 0
    (match group_by_day data with
     | Ok daily => Nat.min 5 (length daily)
     | Raise _ => 0
     end)
    (display_forecast E data w).
Proof.
  unfold display_forecast. rewrite bind_emit, bind_lift.
  destruct (group_by_day data) as [daily|e].
  - destruct (day_cards_frames (card_buckets daily) 0 w) as (n & Hn & Hcols & Hicons & Hret).
    assert (Hlen : length (card_buckets daily) = Nat.min 5 (length daily))
      by apply length_firstn.
    rewrite Hlen in Hn, Hret.
    exists n. cbn [returned events]. repeat split; auto.
  - now apply cards_drawn_none.
Qed.

End Cards.
End CardFacts.
Import CardFacts.

Lemma grouped_day_count (entries : list json) (dates : list pystr) (daily : list bucket) :
  entry_dates entries = Ok dates ->
  group_loop entries [] = Ok daily ->
  length daily = distinct_days dates.
Proof.
  intros Hdates Hg.
  transitivity (length (map fst daily)); [symmetry; apply length_map|].
  unfold distinct_days.
  assert (Hnd : NoDup (map fst daily)).
  { eapply group_loop_NoDup; [eassumption | constructor]. }
  assert (Hkeys : forall d, In d (map fst daily) <-> In d dates).
  { intros d. rewrite (@group_loop_keys entries dates [] daily Hdates Hg d).
    cbn [map In]. tauto. }
  apply Nat.le_antisymm; apply NoDup_incl_length.
  - exact Hnd.
  - intros d Hd. apply nodup_In. now apply Hkeys.
  - apply NoDup_nodup.
  - intros d Hd. apply nodup_In in Hd. now apply Hkeys.
Qed.

(** X4. Whatever the payload, and whether or not the display completes,
    [display_forecast] draws at most five day frames, in the grid columns
    0, 1, 2, ... without a gap, and fills exactly one icon slot (image or
    placeholder) per frame drawn. *)
Theorem at_most_five_day_cards World (E : Env World) (data : json) (w : World) :
  exists n,
    n <= 5
    /\ frame_columns (events (display_forecast E data w)) = seq 0 n
    /\ length (filter is_day_icon (events (display_forecast E data w))) = n.
Proof.
  destruct (display_forecast_frames E data w) as (n & Hn & Hcols & Hicons & _).
  exists n. split; [|auto].
  destruct (group_by_day data); lia.
Qed.

(** X5. When the display completes on a list of dated entries, the number
    of day cards is the number of distinct days of the list, capped at
    five. *)
Theorem day_cards_count World (E : Env World)
    (data : json) (entries : list json) (dates : list pystr) (w : World) :
  Py.getitem data (lit "list") = Ok (JArr entries) ->
  entry_dates entries = Ok dates ->
  returned (display_forecast E data w) = Ok tt ->
  frame_columns (events (display_forecast E data w))
  = seq 0 (Nat.min 5 (distinct_days dates))
  /\ length (filter is_day_icon (events (display_forecast E data w)))
     = Nat.min 5 (distinct_days dates).
Proof.
  intros Hlist Hdates Hok.
  destruct (display_forecast_frames E data w) as (n & _ & Hcols & Hicons & Hret).
  specialize (Hret Hok).
  assert (Hg : exists daily, group_by_day data = Ok daily /\ group_loop entries [] = Ok daily).
  { unfold group_by_day. rewrite Hlist. cbn [rbind Py.iter].
    destruct (@group_loop_total entries dates [] Hdates) as [daily Hd].
    exists daily. now rewrite Hd. }
  destruct Hg as (daily & Hgd & Hgl). rewrite Hgd in Hret.
  rewrite (grouped_day_count _ Hdates Hgl) in Hret.
  rewrite <- Hret. split; assumption.
Qed.

Lemma day_cards_count_witness :
  let w := Demo.mkWorld [] [] in
  frame_columns (events (display_forecast Demo.env Demo.forecast_payload w))
  = seq 0 (Nat.min 5 (distinct_days (ok_or [] (entry_dates Demo.six_days))))
  /\ length (filter is_day_icon (events (display_forecast Demo.env Demo.forecast_payload w)))
     = Nat.min 5 (distinct_days (ok_or [] (entry_dates Demo.six_days))).
Proof.
  intros w.
  apply (@day_cards_count Demo.World Demo.env Demo.forecast_payload Demo.six_days).
  - reflexivity.
  - vm_compute. reflexivity.
  - vm_compute. reflexivity.
Defined.

(** X6. One entry without a usable timestamp anywhere in the list, even
    on a day that would not be shown, leaves the card row empty:
    [display_forecast] has cleared the old cards, draws none and raises. *)
Theorem undated_entry_blanks_cards World (E : Env World)
    (data : json) (entries : list json) (x : json) (ex : exn) (w : World) :
  Py.getitem data (lit "list") = Ok (JArr entries) ->
  In x entries ->
  entry_date x = Raise ex ->
  exists e, display_forecast E data w = mkOutcome (Raise e) [ForecastClear] w.
Proof.
  intros Hlist Hin Hx.
  destruct (group_loop_raises entries [] x Hin Hx) as [e He].
  exists e. unfold display_forecast. rewrite bind_emit, bind_lift.
  unfold group_by_day. rewrite Hlist. cbn [rbind Py.iter]. rewrite He. reflexivity.
Qed.

Lemma undated_entry_blanks_cards_witness :
  exists e,
    display_forecast Demo.env
      (JObj [(lit "list", JArr (Demo.six_days ++ [JObj [(lit "dt", JInt 0)]]))])
      (Demo.mkWorld [] [])
    = mkOutcome (Raise e) [ForecastClear] (Demo.mkWorld [] []).
Proof.
  eapply (@undated_entry_blanks_cards Demo.World Demo.env _
            (Demo.six_days ++ [JObj [(lit "dt", JInt 0)]])
            (JObj [(lit "dt", JInt 0)])).
  - reflexivity.
  - apply in_or_app. right. left. reflexivity.
  - vm_compute. reflexivity.
Defined.

(** ** Hourly table, on any payload *)

Module TableEdgeFacts.
Section TableEdge.
Variable World : Type.
Variable E : Env World.

Lemma table_rows_shape entries : forall w,
  exists rows,
    events (table_rows E entries w) = map TableInsert rows
    /\ length rows <= length entries.
Proof.
  induction entries as [|f rest IH]; intros w; cbn [table_rows].
  - exists []. split; [reflexivity | apply Nat.le_refl].
  - rewrite bind_lift. destruct (row_of_entry E f) as [r|e].
    + rewrite bind_emit. cbn [events]. destruct (IH w) as (rows & Hev & Hlen).
      exists (r :: rows). rewrite Hev. split; [reflexivity | cbn [length]; lia].
    + exists []. split; [reflexivity | cbn [length]; lia].
Qed.

Lemma table_rows_stops entries : forall k rows f e w,
  map_result (row_of_entry E) (firstn k entries) = Ok rows ->
  nth_error entries k = Some f ->
  row_of_entry E f = Raise e ->
  table_rows E entries w = mkOutcome (Raise e) (map TableInsert rows) w.
Proof.
  induction entries as [|x rest IH]; intros k rows f e w Hrows Hnth Hf.
  - destruct k; discriminate.
  - cbn [table_rows]. rewrite bind_lift. destruct k as [|k].
    + cbn in Hrows, Hnth. inversion Hrows; inversion Hnth; subst.
      rewrite Hf. reflexivity.
    + cbn [firstn map_result nth_error] in Hrows, Hnth.
      destruct (row_of_entry E x) as [r|e']; cbn [rbind] in Hrows; [|discriminate].
      destruct (map_result (row_of_entry E) (firstn k rest)) as [rs|e'] eqn:Hrs;
        cbn [rbind] in Hrows; [|discriminate].
      inversion Hrows; subst rows.
      rewrite bind_emit, (IH k rs f e w Hrs Hnth Hf). reflexivity.
Qed.

Lemma slice_iter_length n l v items :
  Py.slice_to n l = Ok v -> Py.iter v = Ok items -> length items <= n.
Proof.
  destruct l; cbn [Py.slice_to]; try discriminate; intros Hv; injection Hv as <-;
    cbn [Py.iter]; intros Hi; injection Hi as <-.
  - rewrite length_map. apply firstn_le_length.
  - apply firstn_le_length.
Qed.

Lemma display_forecast_table_shape data w :
  exists rows,
    events (display_forecast_table E data w) = TableClear :: map TableInsert rows
    /\ length rows <= 24.
Proof.
  unfold display_forecast_table. rewrite bind_emit. cbn [events].
  rewrite bind_lift. destruct (Py.getitem data (lit "list")) as [l|e];
    [|exists []; split; [reflexivity | cbn [length]; lia]].
  rewrite bind_lift. destruct (Py.slice_to 24 l) as [v|e] eqn:Hv;
    [|exists []; split; [reflexivity | cbn [length]; lia]].
  rewrite bind_lift. destruct (Py.iter v) as [items|e] eqn:Hi;
    [|exists []; split; [reflexivity | cbn [length]; lia]].
  destruct (table_rows_shape items w) as (rows & Hev & Hlen).
  exists rows. rewrite Hev. split; [reflexivity|].
  pose proof (slice_iter_length _ _ Hv Hi). lia.
Qed.

End TableEdge.
End TableEdgeFacts.
Import TableEdgeFacts.

(** X7. Whatever the payload, and whether or not the display completes,
    the hourly table ends up with at most 24 rows, none of which is a row
    it held before the call. *)
Theorem hourly_table_at_most_24 World (E : Env World)
    (data : json) (w : World) (before : list table_row) :
  let evs := events (display_forecast_table E data w) in
  length (table_after evs before) <= 24
  /\ table_after evs before = table_after evs [].
Proof.
  intros evs. subst evs.
  destruct (display_forecast_table_shape E data w) as (rows & -> & Hlen).
  cbn [table_after]. rewrite (table_after_inserts rows []). auto.
Qed.

(** X8. When the row of entry [k] (with [k < 24]) cannot be built and those
    of the entries before it can, the table holds exactly the rows of the
    entries before [k], and the exception of entry [k] leaves
    [display_forecast_table]. *)
Theorem hourly_table_stops_at_bad_entry World (E : Env World)
    (data : json) (entries : list json) (k : nat) (rows before : list table_row)
    (f : json) (e : exn) (w : World) :
  Py.getitem data (lit "list") = Ok (JArr entries) ->
  k < 24 ->
  map_result (row_of_entry E) (firstn k entries) = Ok rows ->
  nth_error entries k = Some f ->
  row_of_entry E f = Raise e ->
  let o := display_forecast_table E data w in
  returned o = Raise e
  /\ table_after (events o) before = rows
  /\ length rows = k.
Proof.
  intros Hlist Hk Hrows Hnth Hf o.
  assert (Ho : o = mkOutcome (Raise e) (TableClear :: map TableInsert rows) w).
  { subst o. unfold display_forecast_table. rewrite bind_emit, bind_lift, Hlist.
    rewrite bind_lift. cbn [Py.slice_to]. rewrite bind_lift. cbn [Py.iter].
    rewrite (@table_rows_stops World E (firstn 24 entries) k rows f e w).
    - reflexivity.
    - rewrite firstn_firstn, Nat.min_l by lia. exact Hrows.
    - rewrite nth_error_firstn. destruct (Nat.ltb_spec k 24); [exact Hnth | lia].
    - exact Hf. }
  rewrite Ho. cbn [returned events table_after].
  split; [reflexivity|]. split; [apply (table_after_inserts rows [])|].
  rewrite (map_result_length _ _ Hrows), length_firstn.
  apply Nat.min_l. apply Nat.lt_le_incl. apply nth_error_Some. congruence.
Qed.

Lemma hourly_table_stops_at_bad_entry_witness :
  let entries := [Demo.entry "2024-01-01 18:00:00" 0;
                  Demo.entry "2024-01-01 21:00:00" 1;
                  JObj [(lit "dt_txt", JStr (lit "2024-01-02 00:00:00"))];
                  Demo.entry "2024-01-02 03:00:00" 3] in
  let o := display_forecast_table Demo.env (JObj [(lit "list", JArr entries)])
             (Demo.mkWorld [] []) in
  returned o = Raise (mkExn KeyError (Py.quoted (lit "dt")))
  /\ table_after (events o) []
     = ok_or [] (map_result (row_of_entry Demo.env) (firstn 2 entries))
  /\ length (ok_or [] (map_result (row_of_entry Demo.env) (firstn 2 entries))) = 2.
Proof.
  intros entries.
  apply (@hourly_table_stops_at_bad_entry Demo.World Demo.env _ entries 2 _ []
           (JObj [(lit "dt_txt", JStr (lit "2024-01-02 00:00:00"))])).
  - reflexivity.
  - lia.
  - vm_compute. reflexivity.
  - reflexivity.
  - vm_compute. reflexivity.
Defined.

(** ** Advisory generator, on any input *)

Module AdvisoryEdgeFacts.
Section AdvisoryEdge.
Variable World : Type.
Variable E : Env World.

Lemma try_models_trace models : forall prompt last w,
  exists n,
    n <= length models
    /\ attempted (events (try_models E models prompt last w)) = firstn n models
    /\ length (printed (events (try_models E models prompt last w))) <= n
    /\ n <= S (length (printed (events (try_models E models prompt last w))))
    /\ dialogs (events (try_models E models prompt last w)) = [].
Proof.
  induction models as [|m rest IH]; intros prompt last w.
  - exists 0. cbn. repeat split; lia.
  - destruct (generate_content E m prompt w) as [[text|e] w1] eqn:Hg.
    + rewrite (try_models_success E _ rest _ last _ Hg).
      exists 1. cbn. repeat split; lia.
    + rewrite (try_models_fail E _ rest _ last _ Hg). cbv zeta.
      destruct (IH prompt (Some e) w1) as (n & Hn & Hatt & Hp1 & Hp2 & Hd).
      exists (S n). cbn [returned events world length attempted firstn].
      unfold printed, dialogs in *. cbn [flat_map app filter is_dialog length].
      rewrite Hatt, Hd. repeat split; lia.
Qed.

Lemma forecast_summary_of_list forecast_data l :
  Py.getitem forecast_data (lit "list") = Ok (JArr l) ->
  forecast_summary E forecast_data = map_result (forecast_line E) (firstn 8 l).
Proof.
  unfold Py.getitem, forecast_summary.
  destruct forecast_data as [| | | | | |fields]; try discriminate.
  destruct (Py.lookup (lit "list") fields) as [v|] eqn:Hl; [|discriminate].
  intros Hv. injection Hv as ->.
  assert (Ht : Py.truthy (JObj fields) = true).
  { destruct fields; [discriminate | reflexivity]. }
  rewrite Ht. cbn [Py.contains rbind]. rewrite Hl. cbn [rbind].
  unfold Py.getitem. rewrite Hl. reflexivity.
Qed.

End AdvisoryEdge.
End AdvisoryEdgeFacts.
Import AdvisoryEdgeFacts.

(** X9. In every call, the models asked are an initial run of the fallback
    list: each model at most once, in list order, none skipped, never more
    than the four of the list; every failed attempt is printed to the
    console, and the generator opens no dialog. *)
Theorem attempts_follow_fallback_order World (E : Env World)
    (weather_data forecast_data : json) (w : World) :
  let evs := events (analyze_weather_with_ai E weather_data forecast_data w) in
  exists n,
    n <= 4
    /\ attempted evs = firstn n models_to_try
    /\ length (printed evs) <= n <= S (length (printed evs))
    /\ dialogs evs = [].
Proof.
  intros evs. subst evs.
  destruct (build_prompt E weather_data forecast_data) as [prompt|e] eqn:Hprompt.
  - rewrite (analyze_with_prompt E _ _ w Hprompt). cbv zeta. cbn [events].
    destruct (try_models_trace E models_to_try prompt None w)
      as (n & Hn & Hatt & Hp1 & Hp2 & Hd).
    exists n. unfold printed, dialogs in *.
    cbn [attempted flat_map app filter is_dialog].
    repeat split; assumption.
  - rewrite (analyze_without_prompt E _ _ w Hprompt).
    exists 0. cbn. repeat split; lia.
Qed.

(** X10. Only the first eight entries of the forecast list reach the
    prompt: two forecast payloads whose lists agree on their first eight
    entries give the same prompt, and the forecast part of the prompt has
    at most eight lines. *)
Theorem prompt_uses_first_eight_entries World (E : Env World)
    (weather_data forecast1 forecast2 : json) (l1 l2 : list json) :
  Py.getitem forecast1 (lit "list") = Ok (JArr l1) ->
  Py.getitem forecast2 (lit "list") = Ok (JArr l2) ->
  firstn 8 l1 = firstn 8 l2 ->
  build_prompt E weather_data forecast1 = build_prompt E weather_data forecast2
  /\ forall lines, forecast_summary E forecast1 = Ok lines -> length lines <= 8.
Proof.
  intros H1 H2 Heq.
  assert (Hs : forecast_summary E forecast1 = forecast_summary E forecast2).
  { rewrite (forecast_summary_of_list E _ H1), (forecast_summary_of_list E _ H2).
    now rewrite Heq. }
  split.
  - unfold build_prompt. now rewrite Hs.
  - intros lines Hl. rewrite (forecast_summary_of_list E _ H1) in Hl.
    rewrite (map_result_length _ _ Hl). apply firstn_le_length.
Qed.

Lemma prompt_uses_first_eight_entries_witness :
  let extra := [JNull; JStr (lit "not an entry")] in
  build_prompt Demo.env Demo.weather_payload
    (JObj [(lit "list", JArr (firstn 8 Demo.six_days))])
  = build_prompt Demo.env Demo.weather_payload
      (JObj [(lit "list", JArr (firstn 8 Demo.six_days ++ extra))])
  /\ forall lines,
       forecast_summary Demo.env (JObj [(lit "list", JArr (firstn 8 Demo.six_days))])
       = Ok lines -> length lines <= 8.
Proof.
  intros extra.
  apply (@prompt_uses_first_eight_entries Demo.World Demo.env Demo.weather_payload
           _ _ (firstn 8 Demo.six_days) (firstn 8 Demo.six_days ++ extra)).
  - reflexivity.
  - reflexivity.
  - reflexivity.
Defined.

(** X11. A weather payload whose "weather" list is empty makes the
    advisory unavailable before any model is asked: indexing the empty
    list raises, and the call returns the corresponding text without a
    single generation request. *)
Theorem empty_weather_list_skips_models World (E : Env World)
    (fields : list (pystr * json)) (forecast_data : json) (w : World) :
  Py.lookup (lit "weather") fields = Some (JArr []) ->
  analyze_weather_with_ai E (JObj fields) forecast_data w
  = mkOutcome (Ok (lit "AI Analysis unavailable: " ++ lit "list index out of range"))
              [EnterAnalyze (JObj fields) forecast_data] w.
Proof.
  intros Hweather.
  apply (analyze_without_prompt E (JObj fields) forecast_data w
           (e := mkExn IndexError (lit "list index out of range"))).
  unfold build_prompt, Py.get. rewrite Hweather.
  destruct (Py.lookup (lit "main") fields); reflexivity.
Qed.

Lemma empty_weather_list_skips_models_witness :
  let weather := JObj [(lit "cod", JInt 200); (lit "weather", JArr [])] in
  let w := Demo.mkWorld [] [Ok (lit "never asked")] in
  analyze_weather_with_ai Demo.env weather Demo.forecast_payload w
  = mkOutcome (Ok (lit "AI Analysis unavailable: " ++ lit "list index out of range"))
              [EnterAnalyze weather Demo.forecast_payload] w.
Proof.
  intros weather w.
  apply (@empty_weather_list_skips_models Demo.World Demo.env
           [(lit "cod", JInt 200); (lit "weather", JArr [])] Demo.forecast_payload w).
  reflexivity.
Defined.

(** ** Fetchers, on failures *)

Module FetchEdgeFacts.
Section FetchEdge.
Variable World : Type.
Variable E : Env World.

Lemma fetch_failure_run {A} req (k : response -> json -> M World A) w e :
  fetch_failure E req w e ->
  (response <- call (HttpGet req) (requests_get E req) ;;
   data <- lift (json_body response) ;;
   k response data)%run w
  = mkOutcome (Raise e) [HttpGet req] (snd (requests_get E req w)).
Proof.
  unfold fetch_failure, bind, call, lift. cbn [returned events world].
  intros [Hreq | (resp & Hreq & Hjson)]; rewrite Hreq; cbn [returned events world].
  - reflexivity.
  - rewrite Hjson. reflexivity.
Qed.

Lemma bind_raise_run {A B} (m : M World A) (k : A -> M World B) w e evs w1 :
  m w = mkOutcome (Raise e) evs w1 ->
  bind m k w = mkOutcome (Raise e) evs w1.
Proof. unfold bind. now intros ->. Qed.

Lemma get_weather_fetch_failure entry w e :
  strip entry <> [] ->
  fetch_failure E (weather_request E (strip entry)) w e ->
  get_weather E entry w
  = if is_request_exception e then
      mkOutcome (Ok None)
                [HttpGet (weather_request E (strip entry)); network_error e]
                (snd (requests_get E (weather_request E (strip entry)) w))
    else
      mkOutcome (Raise e)
                [HttpGet (weather_request E (strip entry))]
                (snd (requests_get E (weather_request E (strip entry)) w)).
Proof.
  intros Hcity Hfail. unfold get_weather.
  remember (strip entry) as city eqn:Hc. destruct city as [|c city]; [congruence|].
  pose proof (@fetch_failure_run _ _ (fun _ data => ret (Some data)) w e Hfail) as Hbody.
  cbv beta in Hbody.
  destruct (is_request_exception e) eqn:Hreq.
  - match goal with
    | |- bind ?m _ w = _ =>
        assert (Htry : m w = mkOutcome (Ok None)
                                       [HttpGet (weather_request E (c :: city)); network_error e]
                                       (snd (requests_get E (weather_request E (c :: city)) w)))
          by (unfold try_except; rewrite Hbody; cbn [returned events world];
              rewrite Hreq; reflexivity)
    end.
    rewrite (@bind_run _ _ _ _ _ w None _ _ Htry). reflexivity.
  - apply bind_raise_run.
    unfold try_except. rewrite Hbody. cbn [returned events world].
    rewrite Hreq. reflexivity.
Qed.

Lemma get_forecast_fetch_failure entry w e :
  strip entry <> [] ->
  fetch_failure E (forecast_request E (strip entry)) w e ->
  get_forecast E entry w
  = if is_request_exception e then
      mkOutcome (Ok None)
                [HttpGet (forecast_request E (strip entry)); network_error e]
                (snd (requests_get E (forecast_request E (strip entry)) w))
    else
      mkOutcome (Raise e)
                [HttpGet (forecast_request E (strip entry))]
                (snd (requests_get E (forecast_request E (strip entry)) w)).
Proof.
  intros Hcity Hfail. unfold get_forecast.
  remember (strip entry) as city eqn:Hc. destruct city as [|c city]; [congruence|].
  match goal with
  | |- try_except _ ?b _ w = _ =>
      assert (Hbody : b w = mkOutcome (Raise e) [HttpGet (forecast_request E (c :: city))]
                                      (snd (requests_get E (forecast_request E (c :: city)) w)))
        by (apply fetch_failure_run; exact Hfail)
  end.
  destruct (is_request_exception e) eqn:Hreq;
    unfold try_except; rewrite Hbody; cbn [returned events world];
    rewrite Hreq; reflexivity.
Qed.

End FetchEdge.
End FetchEdgeFacts.
Import FetchEdgeFacts.

(** X12. A failure of the request, or of the decoding of its answer, with
    an exception of the class [RequestException] is reported by either
    fetcher in a "Network error" dialog carrying the exception text; the
    fetcher returns nothing and touches no widget. *)
Theorem network_error_is_reported World (E : Env World)
    (entry : pystr) (w : World) (e : exn) :
  strip entry <> [] ->
  is_request_exception e = true ->
  (fetch_failure E (weather_request E (strip entry)) w e ->
   get_weather E entry w
   = mkOutcome (Ok None)
               [HttpGet (weather_request E (strip entry)); network_error e]
               (snd (requests_get E (weather_request E (strip entry)) w)))
  /\ (fetch_failure E (forecast_request E (strip entry)) w e ->
      get_forecast E entry w
      = mkOutcome (Ok None)
                  [HttpGet (forecast_request E (strip entry)); network_error e]
                  (snd (requests_get E (forecast_request E (strip entry)) w))).
Proof.
  intros Hcity Hreq. split; intros Hfail.
  - rewrite (@get_weather_fetch_failure World E entry w e Hcity Hfail), Hreq. reflexivity.
  - rewrite (@get_forecast_fetch_failure World E entry w e Hcity Hfail), Hreq. reflexivity.
Qed.

Lemma network_error_is_reported_witness :
  let w := Demo.mkWorld [] [] in
  get_weather Demo.env (lit "Paris") w
  = mkOutcome (Ok None)
              [HttpGet (weather_request Demo.env (strip (lit "Paris")));
               network_error Demo.unreachable] w
  /\ get_forecast Demo.env (lit "Paris") w
     = mkOutcome (Ok None)
                 [HttpGet (forecast_request Demo.env (strip (lit "Paris")));
                  network_error Demo.unreachable] w.
Proof.
  intros w.
  destruct (@network_error_is_reported Demo.World Demo.env (lit "Paris") w Demo.unreachable)
    as [Hw Hf].
  - vm_compute. discriminate.
  - reflexivity.
  - split; [apply Hw | apply Hf]; left; reflexivity.
Defined.

(** X13. An exception of any other class raised while the answer is
    requested or decoded is not caught by either fetcher: it leaves the
    fetcher after the request, with no dialog shown. *)
Theorem other_fetch_exceptions_escape World (E : Env World)
    (entry : pystr) (w : World) (e : exn) :
  strip entry <> [] ->
  is_request_exception e = false ->
  (fetch_failure E (weather_request E (strip entry)) w e ->
   get_weather E entry w
   = mkOutcome (Raise e)
               [HttpGet (weather_request E (strip entry))]
               (snd (requests_get E (weather_request E (strip entry)) w)))
  /\ (fetch_failure E (forecast_request E (strip entry)) w e ->
      get_forecast E entry w
      = mkOutcome (Raise e)
                  [HttpGet (forecast_request E (strip entry))]
                  (snd (requests_get E (forecast_request E (strip entry)) w))).
Proof.
  intros Hcity Hreq. split; intros Hfail.
  - rewrite (@get_weather_fetch_failure World E entry w e Hcity Hfail), Hreq. reflexivity.
  - rewrite (@get_forecast_fetch_failure World E entry w e Hcity Hfail), Hreq. reflexivity.
Qed.

Lemma other_fetch_exceptions_escape_witness :
  let bad := mkExn ValueError (lit "Expecting value") in
  let w := Demo.mkWorld [Ok (mkResponse 200 (Raise bad) [])] [] in
  get_weather Demo.env (lit "Paris") w
  = mkOutcome (Raise bad) [HttpGet (weather_request Demo.env (strip (lit "Paris")))]
              (Demo.mkWorld [] [])
  /\ get_forecast Demo.env (lit "Paris") w
     = mkOutcome (Raise bad) [HttpGet (forecast_request Demo.env (strip (lit "Paris")))]
                 (Demo.mkWorld [] []).
Proof.
  intros bad w.
  destruct (@other_fetch_exceptions_escape Demo.World Demo.env (lit "Paris") w bad)
    as [Hw Hf].
  - vm_compute. discriminate.
  - reflexivity.
  - split; [apply Hw | apply Hf]; right; eexists; split; reflexivity.
Defined.

(** ** Fetchers, on answers *)

Module AnswerFacts.
Section Answer.
Variable World : Type.
Variable E : Env World.

Lemma get_object fields k default :
  Py.get (JObj fields) k default
  = Ok (match Py.lookup k fields with Some v => v | None => default end).
Proof. unfold Py.get. destruct (Py.lookup k fields); reflexivity. Qed.

Lemma weather_fetch_answered c city w resp w1 data :
  requests_get E (weather_request E (c :: city)) w = (Ok resp, w1) ->
  json_body resp = Ok data ->
  try_except is_request_exception
    (response <- call (HttpGet (weather_request E (c :: city)))
                      (requests_get E (weather_request E (c :: city))) ;;
     data <- lift (json_body response) ;;
     ret (Some data))%run
    (fun e => (emit (network_error e) ;;; ret None)%run) w
  = mkOutcome (Ok (Some data)) [HttpGet (weather_request E (c :: city))] w1.
Proof.
  intros Hreq Hjson. unfold try_except.
  rewrite (@answered_request _ E _ _ (fun _ d => ret (Some d)) w resp w1 data Hreq Hjson).
  reflexivity.
Qed.

Lemma bind_events_head {A B} (m : M World A) (k : A -> M World B) w :
  exists rest, events (bind m k w) = events (m w) ++ rest.
Proof.
  unfold bind. destruct (returned (m w)); cbn [events]; eauto.
  exists []. now rewrite app_nil_r.
Qed.

Lemma try_except_events_head {A} c (body : M World A) handler w :
  exists rest, events (try_except c body handler w) = events (body w) ++ rest.
Proof.
  unfold try_except. destruct (returned (body w)) as [a|e].
  - exists []. now rewrite app_nil_r.
  - destruct (c e); cbn [events]; eauto. exists []. now rewrite app_nil_r.
Qed.

Lemma lstrip_head s c rest : lstrip s = c :: rest -> isspace c = false.
Proof.
  induction s as [|a s IH]; cbn [lstrip]; [discriminate|].
  destruct (isspace a) eqn:Ha; [exact IH|].
  intros H. injection H as <- _. exact Ha.
Qed.

Lemma lstrip_nil_iff s : lstrip s = [] <-> forallb isspace s = true.
Proof.
  induction s as [|a s IH]; cbn [lstrip forallb]; [tauto|].
  destruct (isspace a); cbn [andb]; [exact IH | split; discriminate].
Qed.

Lemma forallb_rev {A} (f : A -> bool) l : forallb f (rev l) = forallb f l.
Proof.
  induction l as [|a l IH]; [reflexivity|].
  cbn [rev forallb]. rewrite forallb_app, IH. cbn [forallb].
  rewrite andb_true_r. apply andb_comm.
Qed.

Lemma strip_nil_iff s : strip s = [] <-> forallb isspace s = true.
Proof.
  unfold strip. rewrite <- lstrip_nil_iff. split.
  - intros H. apply (f_equal (@rev N)) in H. rewrite rev_involutive in H. cbn in H.
    apply lstrip_nil_iff in H. rewrite forallb_rev in H.
    destruct (lstrip s) as [|c rest] eqn:Hs; [reflexivity|].
    apply lstrip_head in Hs. cbn [forallb] in H. rewrite Hs in H. discriminate.
  - intros ->. reflexivity.
Qed.

Lemma strip_ends s :
  (forall c rest, strip s = c :: rest -> isspace c = false)
  /\ (forall init c, strip s = init ++ [c] -> isspace c = false).
Proof.
  unfold strip. split.
  - intros c rest H.
    destruct (lstrip (rev (lstrip s))) as [|d tail] eqn:Hr; [discriminate|].
    (* the stripped text is a prefix of [lstrip s] *)
    assert (Hsuffix : exists pre, rev (lstrip s) = pre ++ d :: tail).
    { clear H. revert Hr. generalize (rev (lstrip s)). intros l.
      induction l as [|a l IH]; cbn [lstrip]; [discriminate|].
      destruct (isspace a).
      - intros Hl. destruct (IH Hl) as [pre Hpre]. exists (a :: pre). now rewrite Hpre.
      - intros Hl. exists []. now rewrite Hl. }
    destruct Hsuffix as [pre Hpre].
    apply (f_equal (@rev N)) in Hpre. rewrite rev_involutive, rev_app_distr in Hpre.
    rewrite H in Hpre. cbn [app] in Hpre. eapply lstrip_head. exact Hpre.
  - intros init c H.
    apply (f_equal (@rev N)) in H. rewrite rev_involutive, rev_app_distr in H.
    cbn [rev app] in H. eapply lstrip_head. exact H.
Qed.

End Answer.
End AnswerFacts.
Import AnswerFacts.

(** X14. When the weather endpoint answers with an object whose "cod" is
    not 200 (or is missing), [get_weather] shows an "API error" dialog that
    carries the payload's message ("Unknown error" when it has none),
    returns nothing, and updates no widget. *)
Theorem weather_api_error_is_reported World (E : Env World)
    (entry : pystr) (w w1 : World) (resp : response) (fields : list (pystr * json)) :
  strip entry <> [] ->
  requests_get E (weather_request E (strip entry)) w = (Ok resp, w1) ->
  json_body resp = Ok (JObj fields) ->
  payload_success (JObj fields) = false ->
  get_weather E entry w
  = mkOutcome (Ok None)
      [ HttpGet (weather_request E (strip entry));
        ShowError (lit "API error")
          (JStr (lit "Error from API:" ++ nl
                   ++ py_str E (match Py.lookup (lit "message") fields with
                                | Some m => m
                                | None => JStr (lit "Unknown error")
                                end))) ]
      w1.
Proof.
  intros Hcity Hreq Hjson Hfail. unfold get_weather.
  remember (strip entry) as city eqn:Hc. destruct city as [|c city]; [congruence|].
  rewrite (@bind_run _ _ _ _ _ w (Some (JObj fields)) _ w1
             (weather_fetch_answered E c city w Hreq Hjson)).
  unfold payload_success in Hfail. rewrite get_object in Hfail.
  rewrite bind_lift, get_object, Hfail. cbn [negb].
  rewrite bind_lift, get_object, bind_emit. reflexivity.
Qed.

Lemma weather_api_error_is_reported_witness :
  let w := Demo.mkWorld [Demo.http_ok 404 Demo.not_found_payload] [] in
  get_weather Demo.env (lit "Atlantis") w
  = mkOutcome (Ok None)
      [ HttpGet (weather_request Demo.env (strip (lit "Atlantis")));
        ShowError (lit "API error")
          (JStr (lit "Error from API:" ++ nl ++ lit "city not found")) ]
      (Demo.mkWorld [] []).
Proof.
  intros w.
  apply (@weather_api_error_is_reported Demo.World Demo.env (lit "Atlantis") w
           (Demo.mkWorld [] []) (mkResponse 404 (Ok Demo.not_found_payload) [])
           [ (lit "cod", JStr (lit "404"));
             (lit "message", JStr (lit "city not found"));
             (lit "list", JArr []) ]).
  - vm_compute. discriminate.
  - reflexivity.
  - reflexivity.
  - reflexivity.
Defined.

(** X15. An HTTP-200 forecast answer that is an object without a "list"
    key is not reported in a dialog: [get_forecast] clears the day cards,
    leaves the hourly table as it was, and the [KeyError] leaves it. *)
Theorem forecast_without_list_raises World (E : Env World)
    (entry : pystr) (w w1 : World) (resp : response) (fields : list (pystr * json)) :
  strip entry <> [] ->
  requests_get E (forecast_request E (strip entry)) w = (Ok resp, w1) ->
  json_body resp = Ok (JObj fields) ->
  status_code resp = 200%Z ->
  Py.lookup (lit "list") fields = None ->
  get_forecast E entry w
  = mkOutcome (Raise (mkExn KeyError (Py.quoted (lit "list"))))
              [HttpGet (forecast_request E (strip entry)); ForecastClear] w1.
Proof.
  intros Hcity Hreq Hjson Hstatus Hlist. unfold get_forecast.
  remember (strip entry) as city eqn:Hc. destruct city as [|c city]; [congruence|].
  match goal with
  | |- try_except _ ?b _ w = _ =>
      assert (Hbody : b w = mkOutcome (Raise (mkExn KeyError (Py.quoted (lit "list"))))
                                      [HttpGet (forecast_request E (c :: city)); ForecastClear]
                                      w1)
  end.
  { rewrite (@answered_request World E _ _ _ w resp w1 (JObj fields) Hreq Hjson).
    cbv beta zeta. rewrite Hstatus. cbn [Z.eqb Pos.eqb].
    assert (Hd : display_forecast E (JObj fields) w1
                 = mkOutcome (Raise (mkExn KeyError (Py.quoted (lit "list"))))
                             [ForecastClear] w1).
    { unfold display_forecast. rewrite bind_emit, bind_lift.
      unfold group_by_day, Py.getitem. rewrite Hlist. reflexivity. }
    rewrite (@bind_raise_run _ _ _ _ _ _ _ _ _ Hd). reflexivity. }
  unfold try_except. rewrite Hbody. reflexivity.
Qed.

Lemma forecast_without_list_raises_witness :
  let fields := [(lit "cod", JStr (lit "200")); (lit "cnt", JInt 0)] in
  let w := Demo.mkWorld [Demo.http_ok 200 (JObj fields)] [] in
  get_forecast Demo.env (lit "Paris") w
  = mkOutcome (Raise (mkExn KeyError (Py.quoted (lit "list"))))
              [HttpGet (forecast_request Demo.env (strip (lit "Paris"))); ForecastClear]
              (Demo.mkWorld [] []).
Proof.
  intros fields w.
  apply (@forecast_without_list_raises Demo.World Demo.env (lit "Paris") w
           (Demo.mkWorld [] []) (mkResponse 200 (Ok (JObj fields)) []) fields).
  - vm_compute. discriminate.
  - reflexivity.
  - reflexivity.
  - reflexivity.
  - reflexivity.
Defined.

(** X16. For a non-empty city, [get_all_data] still runs the forecast
    fetch after a weather fetch that returned nothing (so an unknown city
    is reported twice) and then stops without an advisory; but when the
    weather fetch raises, the forecast is never requested. *)
Theorem forecast_runs_after_failed_weather World (E : Env World)
    (entry : pystr) (w : World) :
  strip entry <> [] ->
  let weather_run := get_weather E entry w in
  let forecast_run := get_forecast E entry (world weather_run) in
  (returned weather_run = Ok None ->
   get_all_data E entry w
   = mkOutcome (match returned forecast_run with
                | Ok _ => Ok tt
                | Raise e => Raise e
                end)
               (events weather_run ++ events forecast_run)
               (world forecast_run))
  /\ (forall e, returned weather_run = Raise e ->
        get_all_data E entry w = mkOutcome (Raise e) (events weather_run) (world weather_run)).
Proof.
  intros Hcity weather_run forecast_run. unfold get_all_data.
  destruct (strip entry) as [|c city] eqn:Hs; [congruence|]. split.
  - intros Hw. rewrite (bind_Ok _ _ _ Hw). fold weather_run.
    destruct (returned forecast_run) as [fr|e] eqn:Hf.
    + rewrite (bind_Ok _ _ _ Hf). fold forecast_run.
      cbn [returned_value Py.truthy andb ret returned events world].
      now rewrite app_nil_r.
    + rewrite (bind_Raise _ _ _ Hf). fold forecast_run. reflexivity.
  - intros e Hw. rewrite (bind_Raise _ _ _ Hw). reflexivity.
Qed.

Lemma forecast_runs_after_failed_weather_witness :
  let w := Demo.mkWorld [Demo.http_ok 404 Demo.not_found_payload;
                         Demo.http_ok 404 Demo.not_found_payload] [] in
  length (dialogs (events (get_all_data Demo.env (lit "Atlantis") w))) = 2
  /\ requests_of (events (get_all_data Demo.env (lit "Atlantis") w))
     = [weather_request Demo.env (lit "Atlantis"); forecast_request Demo.env (lit "Atlantis")]
  /\ advisory_invoked (events (get_all_data Demo.env (lit "Atlantis") w)) = false.
Proof.
  intros w.
  destruct (@forecast_runs_after_failed_weather Demo.World Demo.env (lit "Atlantis") w)
    as [Hnone _].
  - vm_compute. discriminate.
  - rewrite Hnone by reflexivity. vm_compute. repeat split.
Defined.

(** X17. [get_weather] moves the map exactly when both coordinates of the
    payload are truthy: a latitude or longitude that is missing or equal to
    zero (a place on the equator or on the prime meridian) leaves the map
    where it was. *)
Theorem map_moves_iff_coordinates_truthy World (E : Env World)
    (data name coord lat lon : json) (w : World) :
  Py.get data (lit "coord") (JObj []) = Ok coord ->
  Py.get coord (lit "lat") JNull = Ok lat ->
  Py.get coord (lit "lon") JNull = Ok lon ->
  existsb is_map_event (events (update_map E data name w))
  = Py.truthy lat && Py.truthy lon
  /\ (Py.truthy lat && Py.truthy lon = false ->
      update_map E data name w = mkOutcome (Ok tt) [] w).
Proof.
  intros Hcoord Hlat Hlon. unfold update_map.
  rewrite bind_lift, Hcoord, bind_lift, Hlat.
  destruct (Py.truthy lat); cbn [andb].
  - rewrite bind_lift, Hlon. destruct (Py.truthy lon).
    + split; [|discriminate]. unfold bind, call. cbn [returned events world].
      destruct (fst (map_set_position E lat lon w)); reflexivity.
    + split; reflexivity.
  - split; reflexivity.
Qed.

Lemma map_moves_iff_coordinates_truthy_witness :
  let quito := JObj [(lit "coord", JObj [(lit "lat", JInt 0); (lit "lon", JInt (-78))])] in
  let w := Demo.mkWorld [] [] in
  existsb is_map_event (events (update_map Demo.env quito (JStr (lit "Quito")) w))
  = Py.truthy (JInt 0) && Py.truthy (JInt (-78))
  /\ (Py.truthy (JInt 0) && Py.truthy (JInt (-78)) = false ->
      update_map Demo.env quito (JStr (lit "Quito")) w = mkOutcome (Ok tt) [] w).
Proof.
  intros quito w.
  apply (@map_moves_iff_coordinates_truthy Demo.World Demo.env quito (JStr (lit "Quito"))
           (JObj [(lit "lat", JInt 0); (lit "lon", JInt (-78))]) (JInt 0) (JInt (-78)) w);
    reflexivity.
Defined.

(** X18. The entry counts as empty exactly when it consists of whitespace
    only: then [get_all_data] shows the input warning and does nothing
    else; otherwise its first action is the weather request, sent for the
    entry text stripped of its surrounding whitespace. *)
Theorem blank_entry_iff_only_warning World (E : Env World) (entry : pystr) (w : World) :
  (forallb isspace entry = true <->
   get_all_data E entry w = mkOutcome (Ok tt) [input_warning] w)
  /\ (forallb isspace entry = false ->
      exists rest,
        events (get_all_data E entry w)
        = HttpGet (weather_request E (strip entry)) :: rest)
  /\ (forall c rest, strip entry = c :: rest -> isspace c = false)
  /\ (forall init c, strip entry = init ++ [c] -> isspace c = false).
Proof.
  assert (Hrequest : strip entry <> [] ->
            exists rest, events (get_all_data E entry w)
                         = HttpGet (weather_request E (strip entry)) :: rest).
  { intros Hcity. unfold get_all_data.
    destruct (strip entry) as [|c city] eqn:Hs; [congruence|].
    match goal with
    | |- context [events (bind ?m ?k w)] => destruct (bind_events_head m k w) as [r1 ->]
    end.
    unfold get_weather. rewrite Hs.
    match goal with
    | |- context [events (bind ?m ?k w)] => destruct (bind_events_head m k w) as [r2 ->]
    end.
    match goal with
    | |- context [events (try_except ?c ?b ?h w)] =>
        destruct (try_except_events_head c b h w) as [r3 ->]
    end.
    match goal with
    | |- context [events (bind ?m ?k w)] => destruct (bind_events_head m k w) as [r4 ->]
    end.
    cbn [call events app]. eauto. }
  split; [|split; [|apply strip_ends]].
  - split.
    + intros Hblank. apply strip_nil_iff in Hblank.
      unfold get_all_data. rewrite Hblank. reflexivity.
    + intros Hrun. apply strip_nil_iff.
      destruct (strip entry) as [|c city] eqn:Hs; [reflexivity|].
      destruct Hrequest as [rest Hrest]; [discriminate|].
      rewrite Hrun in Hrest. discriminate.
  - intros Hnonblank. apply Hrequest. intros Hs.
    apply strip_nil_iff in Hs. congruence.
Qed.

(** X19. For a success payload without weather descriptions (the key is
    missing or its value is falsy) [get_weather] takes the description
    "N/A" and no icon code, and its icon block then sends no request. *)
Theorem no_weather_list_no_icon World (E : Env World)
    (data weather_list : json) (city : pystr) (s : snapshot) :
  Py.get data (lit "weather") (JArr []) = Ok weather_list ->
  Py.truthy weather_list = false ->
  extract_snapshot data city = Ok s ->
  description s = JStr (lit "N/A")
  /\ icon_code s = JNull
  /\ forall w, update_icon E (icon_code s) w = mkOutcome (Ok tt) [] w.
Proof.
  intros Hweather Hfalsy Hs. unfold extract_snapshot in Hs.
  destruct (Py.get data (lit "name") (JStr city)) as [name|]; cbn [rbind] in Hs; [|discriminate].
  destruct (Py.get data (lit "main") (JObj [])) as [main|]; cbn [rbind] in Hs; [|discriminate].
  rewrite Hweather in Hs. cbn [rbind] in Hs.
  destruct (Py.get data (lit "wind") (JObj [])) as [wind|]; cbn [rbind] in Hs; [|discriminate].
  destruct (Py.get main (lit "temp") JNull) as [t|]; cbn [rbind] in Hs; [|discriminate].
  destruct (Py.get main (lit "humidity") JNull) as [h|]; cbn [rbind] in Hs; [|discriminate].
  destruct (Py.get main (lit "pressure") JNull) as [p|]; cbn [rbind] in Hs; [|discriminate].
  destruct (Py.get main (lit "feels_like") JNull) as [fl|]; cbn [rbind] in Hs; [|discriminate].
  unfold first_weather_field in Hs. rewrite Hfalsy in Hs. cbn [rbind] in Hs.
  destruct (Py.get wind (lit "speed") JNull) as [ws|]; cbn [rbind] in Hs; [|discriminate].
  injection Hs as <-. cbn [description icon_code]. repeat split.
Qed.

Lemma no_weather_list_no_icon_witness :
  let data := JObj [(lit "cod", JInt 200); (lit "name", JStr (lit "Nowhere"))] in
  let s := ok_or (mkSnapshot JNull JNull JNull JNull JNull JNull JNull JNull)
                 (extract_snapshot data (lit "Nowhere")) in
  description s = JStr (lit "N/A")
  /\ icon_code s = JNull
  /\ forall w, update_icon Demo.env (icon_code s) w = mkOutcome (Ok tt) [] w.
Proof.
  intros data s.
  apply (@no_weather_list_no_icon Demo.World Demo.env data (JArr []) (lit "Nowhere") s).
  - reflexivity.
  - reflexivity.
  - vm_compute. reflexivity.
Defined.

(** X20. When both fetchers returned their payload, [get_all_data] ends by
    writing into the advisory widget exactly the text the generator
    returned, whatever that text is (an answer or an unavailability
    message), and it completes without raising. *)
Theorem advisory_text_is_displayed World (E : Env World)
    (entry : pystr) (w : World) (weather_data forecast_data : json) :
  let weather_run := get_weather E entry w in
  let forecast_run := get_forecast E entry (world weather_run) in
  let advisory_run :=
    analyze_weather_with_ai E weather_data forecast_data (world forecast_run) in
  returned weather_run = Ok (Some weather_data) ->
  returned forecast_run = Ok (Some forecast_data) ->
  exists text,
    returned advisory_run = Ok text
    /\ get_all_data E entry w
       = mkOutcome (Ok tt)
                   (events weather_run ++ events forecast_run
                      ++ events advisory_run ++ [AdvisoryText text])
                   (world advisory_run).
Proof.
  intros weather_run forecast_run advisory_run Hw Hf.
  destruct (analyze_outcome E weather_data forecast_data (world forecast_run))
    as (text & _ & Ht & _).
  exists text. split; [exact Ht|].
  unfold get_all_data. destruct (strip entry) as [|c city] eqn:Hs.
  { subst weather_run. unfold get_weather in Hw. rewrite Hs in Hw. discriminate. }
  rewrite (bind_Ok _ _ _ Hw). fold weather_run.
  rewrite (bind_Ok _ _ _ Hf). fold forecast_run.
  cbn [returned_value returned events world].
  rewrite (get_weather_returns_truthy _ _ _ Hw).
  rewrite (get_forecast_returns_truthy _ _ _ Hf). cbn [andb].
  rewrite (bind_Ok _ _ _ Ht). fold advisory_run. reflexivity.
Qed.

Lemma advisory_text_is_displayed_witness :
  let w := Demo.mkWorld [Demo.http_ok 200 Demo.weather_payload; Demo.icon_ok;
                         Demo.http_ok 200 Demo.forecast_payload]
                        [Raise (Demo.quota "lite"); Ok (lit "Carry an umbrella.")] in
  exists rest,
    events (get_all_data Demo.env (lit "Bangalore") w)
    = rest ++ [AdvisoryText (lit "Carry an umbrella.")].
Proof.
  intros w.
  destruct (@advisory_text_is_displayed Demo.World Demo.env (lit "Bangalore") w
              Demo.weather_payload Demo.forecast_payload) as (text & Ht & Hrun).
  - vm_compute. reflexivity.
  - vm_compute. reflexivity.
  - assert (Htext : text = lit "Carry an umbrella.").
    { vm_compute in Ht. injection Ht as <-. reflexivity. }
    subst text. rewrite Hrun. cbn [events].
    eexists. rewrite !app_assoc. reflexivity.
Defined.
